(** * GramIQ Farm Finance: the report service of [main.py]

    A shallow embedding of the service: the pydantic data models, the chart
    renderer [generate_charts], the document composer [create_and_save_pdf],
    the record store behind [/api/generate] and [/api/reports], and the
    download route [/reports/{filename}].

    Python numbers are modelled as they are at run time: [int] as [Z] and
    [float] as an IEEE 754 binary64 value ([spec_float] with precision 53 and
    exponent bound 1024).  The libraries the service calls (matplotlib,
    reportlab, the file system, the clock) are outside [main.py]; their
    outcomes are inputs of the model, so that every statement about the code
    holds whatever those libraries answer.  What the validator reads as a
    float and what the framework does when it sends a file are written out
    as those libraries do them. *)

From Stdlib Require Import ZArith List String Ascii Bool Lia.
From Stdlib Require Import SpecFloat DecimalString Permutation Sorted.
Import ListNotations.

Local Open Scope string_scope.
Local Open Scope Z_scope.

(** ** Exceptions and results *)

(** The exceptions that matter to the service: the one Python raises on a
    division by zero, and whatever a library call raises (kept as the text of
    the error). *)
Inductive exn : Type :=
| ZeroDivisionError
| LibraryError (what : string).

Inductive result (A : Type) : Type :=
| Ok (a : A)
| Raise (e : exn).

Arguments Ok {A} a.
Arguments Raise {A} e.

Definition bind {A B : Type} (r : result A) (k : A -> result B) : result B :=
  match r with
  | Ok a => k a
  | Raise e => Raise e
  end.

Notation "x <- r ;; k" := (bind r (fun x => k))
  (at level 61, r at next level, right associativity).

(** What a library call gives back: a value or the text of its error. *)
Inductive outcome (A : Type) : Type :=
| Returned (a : A)
| Failed (what : string).

Arguments Returned {A} a.
Arguments Failed {A} what.

Definition call {A : Type} (o : outcome A) : result A :=
  match o with
  | Returned a => Ok a
  | Failed what => Raise (LibraryError what)
  end.

(** ** Python numbers *)

Module Num.

Definition prec : Z := 53.
Definition emax : Z := 1024.

(** A Python [float]. *)
Definition float : Type := spec_float.

Definition fadd : float -> float -> float := SFadd prec emax.
Definition fsub : float -> float -> float := SFsub prec emax.
Definition fdiv : float -> float -> float := SFdiv prec emax.

(** [float(n)] for an [int] n: the nearest binary64, ties to even.
    (Python raises OverflowError where this gives an infinity; the
    validator refuses such an int, and the only integers of the service
    itself are the literals 0 and 1.) *)
Definition float_of_Z (n : Z) : float := binary_normalize prec emax n 0 false.

Inductive PyNum : Type :=
| PyInt (n : Z)
| PyFloat (x : float).

Definition to_float (a : PyNum) : float :=
  match a with
  | PyInt n => float_of_Z n
  | PyFloat x => x
  end.

(** [a + b] and [a - b]: exact on two ints, binary64 otherwise. *)
Definition py_add (a b : PyNum) : PyNum :=
  match a, b with
  | PyInt m, PyInt n => PyInt (m + n)
  | _, _ => PyFloat (fadd (to_float a) (to_float b))
  end.

Definition py_sub (a b : PyNum) : PyNum :=
  match a, b with
  | PyInt m, PyInt n => PyInt (m - n)
  | _, _ => PyFloat (fsub (to_float a) (to_float b))
  end.

(** The builtin [sum]: starts from the int 0 and adds the items from left
    to right.  (From CPython 3.12 on, floats are added with a compensated
    sum, whose result can differ in the last bits for three items or
    more.) *)
Definition py_sum (l : list PyNum) : PyNum := fold_left py_add l (PyInt 0).

(** Python compares a float with an int by value, exactly. *)
Definition float_cmp_Z (x : float) (n : Z) : option comparison :=
  match x with
  | S754_nan => None
  | S754_infinity s => Some (if s then Lt else Gt)
  | S754_zero _ => Some (0 ?= n)
  | S754_finite s m e =>
      let v := if s then Zneg m else Zpos m in
      Some (match e with
            | Zneg p => v ?= n * Z.pow_pos 2 p
            | _ => v * 2 ^ e ?= n
            end)
  end.

Definition py_cmp (a b : PyNum) : option comparison :=
  match a, b with
  | PyInt m, PyInt n => Some (m ?= n)
  | PyFloat x, PyInt n => float_cmp_Z x n
  | PyInt m, PyFloat y => option_map CompOpp (float_cmp_Z y m)
  | PyFloat x, PyFloat y => SFcompare x y
  end.

(** [a > b] and [a == b]. *)
Definition py_gt (a b : PyNum) : bool :=
  match py_cmp a b with Some Gt => true | _ => false end.

Definition py_eq (a b : PyNum) : bool :=
  match py_cmp a b with Some Eq => true | _ => false end.

Definition py_lt (a b : PyNum) : bool :=
  match py_cmp a b with Some Lt => true | _ => false end.

(** [a / x] for a float divisor [x]: ZeroDivisionError on a zero divisor. *)
Definition py_truediv (a : PyNum) (x : float) : result PyNum :=
  match x with
  | S754_zero _ => Raise ZeroDivisionError
  | _ => Ok (PyFloat (fdiv (to_float a) x))
  end.

End Num.
Export Num.

(** ** Python text formatting of numbers *)

Module Fmt.

Local Open Scope char_scope.

Definition digit (d : Z) : ascii :=
  match d with
  | 0 => "0" | 1 => "1" | 2 => "2" | 3 => "3" | 4 => "4"
  | 5 => "5" | 6 => "6" | 7 => "7" | 8 => "8" | _ => "9"
  end.

Local Close Scope char_scope.

(** The decimal digits of a natural number, most significant first. *)
Definition decimal (n : Z) : string :=
  NilZero.string_of_uint (N.to_uint (Z.to_N n)).

Definition sign (s : bool) : string := if s then "-" else "".

Fixpoint zeros (n : nat) : string :=
  match n with
  | O => ""
  | S n' => String "0"%char (zeros n')
  end.

(** *** [format(x, ',.2f')] *)

(** Thousands grouping of a digit list given least significant digit
    first. *)
Fixpoint group3 (ds : list ascii) : list ascii :=
  match ds with
  | a :: b :: c :: ((_ :: _) as rest) =>
      a :: b :: c :: ","%char :: group3 rest
  | _ => ds
  end.

Definition thousands (s : string) : string :=
  string_of_list_ascii (rev (group3 (rev (list_ascii_of_string s)))).

(** [num / den] rounded to the nearest integer, ties to even ([den > 0]). *)
Definition round_half_even (num den : Z) : Z :=
  let q := num / den in
  match Z.compare (2 * (num mod den)) den with
  | Lt => q
  | Gt => q + 1
  | Eq => if Z.even q then q else q + 1
  end.

(** The value [m * 2^e] in hundredths, correctly rounded. *)
Definition hundredths (m : positive) (e : Z) : Z :=
  match e with
  | Zneg p => round_half_even (Zpos m * 100) (Z.pow_pos 2 p)
  | _ => Zpos m * 2 ^ e * 100
  end.

Definition fixed2 (n : Z) : string :=
  thousands (decimal (n / 100)) ++ "."
    ++ String (digit (n mod 100 / 10)) (String (digit (n mod 10)) "").

Definition format_float_2f (x : float) : string :=
  match x with
  | S754_nan => "nan"
  | S754_infinity s => sign s ++ "inf"
  | S754_zero s => sign s ++ "0.00"
  | S754_finite s m e => sign s ++ fixed2 (hundredths m e)
  end.

(** [f"{a:,.2f}"]: an int is converted to float first. *)
Definition format_2f (a : PyNum) : string := format_float_2f (to_float a).

(** *** [repr(x)] of a float: the shortest digits that read back as [x] *)

Section Shortest.
Variables (m : positive) (e : Z).

(** Values are compared as [c * 10^k] against [a * 2^(e-2)]: the float is
    [4m * 2^(e-2)] and the midpoints to its neighbours are at
    [4m + 2] and at [4m - 2] ([4m - 1] just above a power of two). *)
Definition cmp_dec_bin (c k a : Z) : comparison :=
  Z.compare (c * 10 ^ Z.max k 0 * 2 ^ Z.max (2 - e) 0)
            (a * 2 ^ Z.max (e - 2) 0 * 10 ^ Z.max (- k) 0).

Definition mid_lo : Z :=
  if Pos.eqb m (Pos.pow 2 52) && (-1074 <? e)
  then 4 * Zpos m - 1 else 4 * Zpos m - 2.

Definition mid_hi : Z := 4 * Zpos m + 2.

(** Does [c * 10^k] read back as the float?  A midpoint does when the
    mantissa is even. *)
Definition reads_back (c k : Z) : bool :=
  match cmp_dec_bin c k mid_lo, cmp_dec_bin c k mid_hi with
  | Gt, Lt => true
  | Eq, Lt | Gt, Eq => Z.even (Zpos m)
  | _, _ => false
  end.

(** The least [d] from [d0] on with [m * 2^e < 10^d]. *)
Fixpoint decpt_from (fuel : nat) (d : Z) : Z :=
  match fuel with
  | O => d
  | S fuel' =>
      match cmp_dec_bin 1 d (4 * Zpos m) with
      | Gt => d
      | _ => decpt_from fuel' (d + 1)
      end
  end.

(** The position of the decimal point: [10^(decpt-1) <= m * 2^e < 10^decpt].
    The float has [b] bits before the binary point, and
    [(b - 1) * log10 2] rounded down, less one, is a start below the
    answer. *)
Definition decpt : Z :=
  let b := Zpos (digits2_pos m) + e in
  decpt_from 8 ((b - 1) * 30103 / 100000 - 1).

(** The integer part of [m * 2^e / 10^k]. *)
Definition floor_scaled (k : Z) : Z :=
  (4 * Zpos m * 2 ^ Z.max (e - 2) 0 * 10 ^ Z.max (- k) 0)
    / (10 ^ Z.max k 0 * 2 ^ Z.max (2 - e) 0).

(** With [n] digits before position [p]: the candidate that reads back,
    the closer one when both neighbours do. *)
Definition candidate (p n : Z) : option Z :=
  let k := p - n in
  let lo := floor_scaled k in
  let hi := lo + 1 in
  match reads_back lo k, reads_back hi k with
  | true, true =>
      match cmp_dec_bin (lo + hi) k (8 * Zpos m) with
      | Gt => Some lo
      | Lt => Some hi
      | Eq => Some (if Z.even lo then lo else hi)
      end
  | true, false => Some lo
  | false, true => Some hi
  | false, false => None
  end.

Fixpoint shortest_from (p : Z) (fuel : nat) (n : Z) : Z * Z :=
  match fuel with
  | O => (floor_scaled (p - n), p - n)
  | S fuel' =>
      match candidate p n with
      | Some c => (c, p - n)
      | None => shortest_from p fuel' (n + 1)
      end
  end.

(** The digits and the exponent [k]: the float prints as [c * 10^k],
    with at most 17 digits. *)
Definition shortest : Z * Z := shortest_from decpt 17 1.
End Shortest.

Fixpoint strip_zeros (ds : list ascii) : list ascii :=
  match ds with
  | "0"%char :: ds' => strip_zeros ds'
  | _ => ds
  end.

(** [take] and [drop] on strings. *)
Definition take (n : nat) (s : string) : string := substring 0 n s.
Definition drop (n : nat) (s : string) : string :=
  substring n (String.length s - n) s.

Definition exponent (x : Z) : string :=
  (if x <? 0 then "-" else "+")
    ++ (if Z.abs x <? 10 then "0" else "") ++ decimal (Z.abs x).

(** The text of the positive float [m * 2^e]. *)
Definition repr_finite (m : positive) (e : Z) : string :=
  let (c, k) := shortest m e in
  let all := decimal c in
  let ds := string_of_list_ascii
              (rev (strip_zeros (rev (list_ascii_of_string all)))) in
  let n := String.length ds in
  let p := k + Z.of_nat (String.length all) in
  if (p <=? -4) || (16 <? p) then
    take 1 ds ++ (if Nat.leb n 1 then "" else "." ++ drop 1 ds)
      ++ "e" ++ exponent (p - 1)
  else if p <=? 0 then
    "0." ++ zeros (Z.to_nat (- p)) ++ ds
  else if Z.of_nat n <=? p then
    ds ++ zeros (Z.to_nat p - n) ++ ".0"
  else
    take (Z.to_nat p) ds ++ "." ++ drop (Z.to_nat p) ds.

(** [repr(x)], which is also [str(x)] and [f"{x}"]. *)
Definition repr_float (x : float) : string :=
  match x with
  | S754_nan => "nan"
  | S754_infinity s => sign s ++ "inf"
  | S754_zero s => sign s ++ "0.0"
  | S754_finite s m e => sign s ++ repr_finite m e
  end.

End Fmt.

(** ** Strings, paths and dates *)

Module Str.

(** [s.replace(old, new)] for one-character [old] and [new]. *)
Fixpoint replace (old new : ascii) (s : string) : string :=
  match s with
  | EmptyString => EmptyString
  | String c s' =>
      String (if Ascii.eqb c old then new else c) (replace old new s')
  end.

(** Does the character occur in the string? *)
Fixpoint mem (c : ascii) (s : string) : bool :=
  match s with
  | EmptyString => false
  | String c' s' => Ascii.eqb c' c || mem c s'
  end.

(** The ASCII characters [str.isspace] accepts: space, tab, line feed,
    vertical tab, form feed, carriage return and the four separators
    28 to 31. *)
Definition is_space (c : ascii) : bool :=
  let n := N_of_ascii c in
  (N.eqb n 32 || (N.leb 9 n && N.leb n 13) || (N.leb 28 n && N.leb n 31))%bool.

Fixpoint has_whitespace (s : string) : bool :=
  match s with
  | EmptyString => false
  | String c s' => is_space c || has_whitespace s'
  end.

(** Whitespace that [replace(" ", "_")] leaves in place. *)
Definition is_other_space (c : ascii) : bool :=
  is_space c && negb (Ascii.eqb c " ").

Fixpoint has_other_whitespace (s : string) : bool :=
  match s with
  | EmptyString => false
  | String c s' => is_other_space c || has_other_whitespace s'
  end.

Definition starts_with_slash (s : string) : bool :=
  match s with
  | String "/" _ => true
  | _ => false
  end.

Fixpoint ends_with_slash (s : string) : bool :=
  match s with
  | EmptyString => false
  | String c EmptyString => Ascii.eqb c "/"
  | String _ s' => ends_with_slash s'
  end.

(** [os.path.join(a, b)] on POSIX: an absolute [b] replaces [a]. *)
Definition os_path_join (a b : string) : string :=
  if starts_with_slash b then b
  else if String.eqb a "" || ends_with_slash a then a ++ b
  else a ++ "/" ++ b.

End Str.

(** ** Floats read from text *)

Module FloatText.

(** [s.strip()], on the ASCII whitespace. *)
Fixpoint lstrip (s : string) : string :=
  match s with
  | String c s' => if Str.is_space c then lstrip s' else s
  | EmptyString => EmptyString
  end.

Fixpoint rstrip (s : string) : string :=
  match s with
  | String c s' =>
      match rstrip s' with
      | EmptyString =>
          if Str.is_space c then EmptyString else String c EmptyString
      | r => String c r
      end
  | EmptyString => EmptyString
  end.

Definition strip (s : string) : string := rstrip (lstrip s).

(** The letter in lower case. *)
Definition lower (c : ascii) : ascii :=
  let n := N_of_ascii c in
  if (N.leb 65 n && N.leb n 90)%bool then ascii_of_N (n + 32) else c.

Fixpoint lower_all (s : string) : string :=
  match s with
  | String c s' => String (lower c) (lower_all s')
  | EmptyString => EmptyString
  end.

Definition is_digit (c : ascii) : bool :=
  let n := N_of_ascii c in (N.leb 48 n && N.leb n 57)%bool.

Definition digit_value (c : ascii) : Z := Z.of_N (N_of_ascii c) - 48.

Definition starts_with_digit (s : string) : bool :=
  match s with
  | String c _ => is_digit c
  | EmptyString => false
  end.

(** A run of digits, a single underscore allowed between two digits: the
    number read so far, the count of its digits, and what is left. *)
Fixpoint digitpart (s : string) (acc count : Z) (after_digit : bool)
  : Z * Z * string :=
  match s with
  | String c s' =>
      if is_digit c
      then digitpart s' (10 * acc + digit_value c) (count + 1) true
      else if (Ascii.eqb c "_" && after_digit && starts_with_digit s')%bool
      then digitpart s' acc count false
      else (acc, count, s)
  | EmptyString => (acc, count, s)
  end.

Definition sign (s : string) : bool * string :=
  match s with
  | String "-" s' => (true, s')
  | String "+" s' => (false, s')
  | _ => (false, s)
  end.

(** The exponent part, if there is one: its value and what is left. *)
Definition exponent (s : string) : option (Z * string) :=
  match s with
  | String c s' =>
      if Ascii.eqb (lower c) "e" then
        let '(neg, s'') := sign s' in
        let '(e, n, rest) := digitpart s'' 0 0 false in
        if n =? 0 then None else Some (if neg then - e else e, rest)
      else Some (0, s)
  | EmptyString => Some (0, s)
  end.

(** The binary64 nearest to [d * 10 ^ e], ties to even.  Far out of the
    range of a float the result is an infinity or a zero, and the power
    of ten is not computed. *)
Definition round_decimal (neg : bool) (d : positive) (e : Z) : float :=
  let digits := Z.log2 (Zpos d) * 30103 / 100000 in
  if 310 <? e + digits then S754_infinity neg
  else if e + digits <? -330 then S754_zero neg
  else if 0 <=? e then
    let n := Zpos d * 10 ^ e in
    binary_normalize prec emax (if neg then - n else n) 0 neg
  else
    let den := 10 ^ (- e) in
    let k := Z.max 0 (64 + Z.log2 den - Z.log2 (Zpos d)) in
    let '(q, r) := Z.div_eucl (Zpos d * 2 ^ k) den in
    binary_round_aux prec emax neg q (- k) (new_location den r).

(** [float(s)] for a [str]: whitespace around is dropped; a sign; then
    [inf], [infinity] or [nan] in any case, or digits with an optional
    point and an optional exponent. *)
Definition parse (s : string) : option float :=
  let '(neg, body) := sign (strip s) in
  let word := lower_all body in
  if (String.eqb word "inf" || String.eqb word "infinity")%bool
  then Some (S754_infinity neg)
  else if String.eqb word "nan" then Some S754_nan
  else
    let '(whole, n1, rest) := digitpart body 0 0 false in
    let '(frac, n2, rest') :=
      match rest with
      | String "." r => digitpart r 0 0 false
      | _ => (0, 0, rest)
      end in
    if n1 + n2 =? 0 then None
    else
      match exponent rest' with
      | Some (e, EmptyString) =>
          match whole * 10 ^ n2 + frac with
          | Zpos d => Some (round_decimal neg d (e - n2))
          | _ => Some (S754_zero neg)
          end
      | _ => None
      end.

End FloatText.

Module Datetime.

Record datetime : Type := {
  year : Z; month : Z; day : Z; hour : Z; minute : Z; second : Z
}.

(** Two digits, zero padded: [%m], [%d], [%H], [%M], [%S]. *)
Definition pad2 (n : Z) : string :=
  if n <? 10 then String "0" (Fmt.decimal n) else Fmt.decimal n.

(** [strftime("%Y%m%d_%H%M%S")]. *)
Definition strftime_stamp (t : datetime) : string :=
  Fmt.decimal (year t) ++ pad2 (month t) ++ pad2 (day t) ++ "_"
    ++ pad2 (hour t) ++ pad2 (minute t) ++ pad2 (second t).

(** [strftime("%Y-%m-%d %H:%M")]. *)
Definition strftime_minute (t : datetime) : string :=
  Fmt.decimal (year t) ++ "-" ++ pad2 (month t) ++ "-" ++ pad2 (day t)
    ++ " " ++ pad2 (hour t) ++ ":" ++ pad2 (minute t).

End Datetime.
Export Datetime.

(** ** Data models *)

Module ExpenseItem.
Record t : Type := {
  category : string;
  amount : float;
  date : string;
  description : option string
}.
End ExpenseItem.

Module IncomeItem.
Record t : Type := {
  category : string;
  amount : float;
  date : string;
  description : option string
}.
End IncomeItem.

Record FarmData : Type := {
  farmer_name : string;
  crop_name : string;
  season : string;
  total_acres : float;
  sowing_date : string;
  harvest_date : string;
  location : string;
  total_production : float;
  expenses : list ExpenseItem.t;
  incomes : list IncomeItem.t
}.

(** ** The libraries and the documents they take *)

(** What [generate_charts] asks matplotlib to draw and save. *)
Record pie_chart : Type := {
  figsize : Z * Z;
  sizes : list PyNum;
  labels : list string;
  autopct : string;
  colors_list : list string;
  startangle : Z;
  axis : string;
  format : string;
  dpi : Z
}.

(** An [io.BytesIO]: its content and its position. *)
Record BytesIO : Type := {
  getvalue : list Byte.byte;
  tell : Z
}.

(** Lengths as the source writes them: points, or tenths of an inch. *)
Inductive length : Type :=
| Points (n : Z)
| TenthsOfInch (n : Z).

Inductive image_source : Type :=
| FromFile (path : string)
| FromBuffer (buf : BytesIO).

Inductive para_style : Type :=
| Title
| Normal
| Heading3.

(** The commands of a reportlab [TableStyle], with the cell range
    [(column, row)] to [(column, row)] each applies to. *)
Inductive style_cmd : Type :=
| BACKGROUND (start stop : Z * Z) (color : string)
| TEXTCOLOR (start stop : Z * Z) (color : string)
| FONTNAME (start stop : Z * Z) (font : string)
| GRID (start stop : Z * Z) (tenths : Z) (color : string)
| BOTTOMPADDING (start stop : Z * Z) (pad : Z)
| TOPPADDING (start stop : Z * Z) (pad : Z).

(** The flowables of a reportlab document. *)
Inductive flowable : Type :=
| RLImage (src : image_source) (width height : length) (hAlign : string)
| Spacer (width : Z) (height : length)
| Paragraph (text : string) (style : para_style)
| Table (data : list (list string)) (colWidths : list Z)
        (style : list style_cmd).

(** The calls that leave [main.py], with what they answer:
    - [now]: [datetime.now()] inside [create_and_save_pdf];
    - [load_image path]: whether [RLImage(path, ...)] returns or raises
      (reportlab's image is lazy: the constructor returns without opening
      the file, which is read when the document is built);
    - [render_pie chart]: the PNG bytes [plt.savefig] writes for the pie that
      [ax.pie] draws, or the error matplotlib raises;
    - [build filepath elements]: the bytes
      [SimpleDocTemplate(filepath).build(elements)] writes, or its error;
    - [json_dumps data]: [json.dumps(data.dict())]. *)
Record Library : Type := {
  now : datetime;
  load_image : string -> outcome unit;
  render_pie : pie_chart -> outcome (list Byte.byte);
  build : string -> list flowable -> outcome (list Byte.byte);
  json_dumps : FarmData -> string
}.

(** ** The world the service acts on *)

Module Store.

(** A row of the table [reports]. *)
Record row : Type := {
  id : Z;
  farmer_name : string;
  crop_name : string;
  filename : string;
  json_data : string;
  created_at : string
}.

(** The table in insertion order, and the largest id ever handed out
    (the row SQLite keeps in [sqlite_sequence] for an AUTOINCREMENT
    column). *)
Record database : Type := {
  rows : list row;
  sequence : Z
}.

Definition empty : database := {| rows := []; sequence := 0 |}.


Definition max_rowid : Z := 2 ^ 63 - 1.

Definition largest_id (l : list row) : Z :=
  fold_right (fun r acc => Z.max (id r) acc) 0 l.

(** INSERT INTO reports (farmer_name, crop_name, filename, json_data,
    created_at): the id is one more than the largest id ever used; when
    that is the largest rowid the insert fails. *)
Definition insert (db : database)
    (farmer crop file json created : string) : result (Z * database) :=
  let last := Z.max (sequence db) (largest_id (rows db)) in
  if max_rowid <=? last then
    Raise (LibraryError "sqlite3.OperationalError: database or disk is full")
  else
    let r := {| id := last + 1; farmer_name := farmer; crop_name := crop;
                filename := file; json_data := json;
                created_at := created |} in
    Ok (last + 1, {| rows := (rows db ++ [r])%list; sequence := last + 1 |}).

(** ORDER BY id DESC. *)
Fixpoint insert_desc (r : row) (sorted : list row) : list row :=
  match sorted with
  | [] => [r]
  | r' :: rest =>
      if id r' <=? id r then r :: sorted else r' :: insert_desc r rest
  end.

Definition order_by_id_desc (l : list row) : list row :=
  fold_right insert_desc [] l.

(** SELECT * FROM reports ORDER BY id DESC. *)
Definition select_all_desc (db : database) : list row :=
  order_by_id_desc (rows db).

End Store.

(** A path of the file system holds a file or is a directory. *)
Inductive entry : Type :=
| File (content : list Byte.byte)
| Directory.

Record World : Type := {
  files : string -> option entry;
  reports : Store.database
}.


(** [os.path.exists]. *)
Definition path_exists (w : World) (path : string) : bool :=
  match files w path with
  | Some _ => true
  | None => false
  end.

Definition write_file (w : World) (path : string) (content : list Byte.byte)
  : World :=
  {| files := fun p => if String.eqb p path then Some (File content)
                       else files w p;
     reports := reports w |}.

(** ** PDF generation *)

Definition generate_charts (lib : Library) (income_total expense_total : PyNum)
  : result BytesIO :=
  let labels := ["Income"; "Expenses"] in
  let sizes := [income_total; expense_total] in
  let colors_list := ["#4CAF50"; "#FF5722"] in
  let sizes :=
    if py_eq (py_sum sizes) (PyInt 0) then [PyInt 1; PyInt 1] else sizes in
  png <- call (render_pie lib
                 {| figsize := (4, 3); sizes := sizes; labels := labels;
                    autopct := "%1.1f%%"; colors_list := colors_list;
                    startangle := 90; axis := "equal";
                    format := "png"; dpi := 100 |}) ;;
  Ok {| getvalue := png; tell := 0 |}.

(** The figures [create_and_save_pdf] derives from the record. *)
Record metrics : Type := {
  total_inc : PyNum;
  total_exp : PyNum;
  profit : PyNum;
  cost_per_acre : PyNum
}.

Definition report_metrics (data : FarmData) : result metrics :=
  let total_inc :=
    py_sum (map (fun i => PyFloat (IncomeItem.amount i)) (incomes data)) in
  let total_exp :=
    py_sum (map (fun e => PyFloat (ExpenseItem.amount e)) (expenses data)) in
  let profit := py_sub total_inc total_exp in
  cost_per_acre <-
    (if py_gt (PyFloat (total_acres data)) (PyInt 0)
     then py_truediv total_exp (total_acres data)
     else Ok (PyInt 0)) ;;
  Ok {| total_inc := total_inc; total_exp := total_exp; profit := profit;
        cost_per_acre := cost_per_acre |}.

Definition summary_data (m : metrics) : list (list string) :=
  [ ["Financial Metrics"; "Value"];
    ["Total Income"; "INR " ++ Fmt.format_2f (total_inc m)];
    ["Total Expense"; "INR " ++ Fmt.format_2f (total_exp m)];
    ["Net Profit/Loss"; "INR " ++ Fmt.format_2f (profit m)];
    ["Cost of Cultivation / Acre"; "INR " ++ Fmt.format_2f (cost_per_acre m)] ].

Definition summary_style : list style_cmd :=
  [ BACKGROUND (0, 0) (1, 0) "#6A1B9A";
    TEXTCOLOR (0, 0) (1, 0) "white";
    FONTNAME (0, 0) (-1, -1) "Helvetica-Bold";
    GRID (0, 0) (-1, -1) 10 "grey";
    BOTTOMPADDING (0, 0) (-1, -1) 8;
    TOPPADDING (0, 0) (-1, -1) 8 ].

Definition table_style : list style_cmd :=
  [ BACKGROUND (0, 0) (-1, 0) "#E1BEE7";
    GRID (0, 0) (-1, -1) 5 "grey" ].

Definition breakdown_header : list string := ["Category"; "Date"; "Amount"].

Definition e_data (l : list ExpenseItem.t) : list (list string) :=
  breakdown_header
    :: map (fun e => [ExpenseItem.category e; ExpenseItem.date e;
                      Fmt.repr_float (ExpenseItem.amount e)]) l.

Definition i_data (l : list IncomeItem.t) : list (list string) :=
  breakdown_header
    :: map (fun i => [IncomeItem.category i; IncomeItem.date i;
                      Fmt.repr_float (IncomeItem.amount i)]) l.

Definition logo_path : string := "static/logo.png".

(** The name of the report file. *)
Definition report_filename (t : datetime) (data : FarmData) : string :=
  let timestamp := strftime_stamp t in
  let clean_name := Str.replace " " "_" (farmer_name data) in
  clean_name ++ "_" ++ crop_name data ++ "_" ++ timestamp ++ ".pdf".

(** The list [elements] as [create_and_save_pdf] has it when it calls
    [doc.build]. *)
Definition report_elements (lib : Library) (data : FarmData)
  : result (list flowable) :=
  let elements := [] in
  (* LOGO: try ... except: pass *)
  let elements :=
    match load_image lib logo_path with
    | Returned _ =>
        elements ++ [RLImage (FromFile logo_path)
                             (TenthsOfInch 15) (TenthsOfInch 6) "LEFT"]
    | Failed _ => elements
    end%list in
  let elements := (elements ++ [Spacer 1 (TenthsOfInch 2)])%list in
  (* HEADER *)
  let elements :=
    (elements
       ++ [Paragraph ("Farm Finance Report: " ++ crop_name data) Title])%list in
  let elements :=
    (elements
       ++ [Paragraph ("<b>Farmer:</b> " ++ farmer_name data
                        ++ " | <b>Location:</b> " ++ location data)
                     Normal])%list in
  let elements := (elements ++ [Spacer 1 (TenthsOfInch 2)])%list in
  (* TABLES & CHARTS LOGIC *)
  m <- report_metrics data ;;
  let t_sum := Table (summary_data m) [250; 150] summary_style in
  let elements := (elements ++ [t_sum])%list in
  let elements := (elements ++ [Spacer 1 (TenthsOfInch 2)])%list in
  chart_buf <- generate_charts lib (total_inc m) (total_exp m) ;;
  let elements :=
    (elements ++ [RLImage (FromBuffer chart_buf)
                          (Points 250) (Points 180) "CENTER"])%list in
  let elements := (elements ++ [Spacer 1 (TenthsOfInch 2)])%list in
  (* Expenses *)
  let elements :=
    (elements ++ [Paragraph "Expense Breakdown" Heading3])%list in
  let elements :=
    match expenses data with
    | [] => elements
    | _ :: _ =>
        elements ++ [Table (e_data (expenses data)) [150; 100; 100] table_style]
    end%list in
  let elements := (elements ++ [Spacer 1 (TenthsOfInch 2)])%list in
  (* Income *)
  let elements :=
    (elements ++ [Paragraph "Income Breakdown" Heading3])%list in
  let elements :=
    match incomes data with
    | [] => elements
    | _ :: _ =>
        elements ++ [Table (i_data (incomes data)) [150; 100; 100] table_style]
    end%list in
  Ok elements.

Definition create_and_save_pdf (lib : Library) (data : FarmData) (w : World)
  : result (string * World) :=
  let filename := report_filename (now lib) data in
  let filepath := Str.os_path_join "reports" filename in
  elements <- report_elements lib data ;;
  pdf <- call (build lib filepath elements) ;;
  Ok (filename, write_file w filepath pdf).

(** ** Input validation *)

(** A request body as [json.loads] gives it. *)
#[warnings="-register-all"]
Inductive json : Type :=
| JNull
| JBool (b : bool)
| JNum (n : PyNum)
| JStr (s : string)
| JArr (items : list json)
| JObj (fields : list (string * json)).

Module Validate.

(** The value of a key of a JSON object: the last one given. *)
Fixpoint get (key : string) (fields : list (string * json)) : option json :=
  match fields with
  | [] => None
  | (k, v) :: rest =>
      match get key rest with
      | Some v' => Some v'
      | None => if String.eqb k key then Some v else None
      end
  end.

(** A field annotated [str]. *)
Definition str_field (key : string) (fields : list (string * json))
  : option string :=
  match get key fields with
  | Some (JStr s) => Some s
  | _ => None
  end.

(** What the validator makes of a value for a field annotated [float]: a
    float as it is; an int converted, unless it is too large for a float;
    a boolean as 1.0 or 0.0; a string that [float] can read.  Nothing
    else, and no bound on the result. *)
Definition float_value (v : json) : option float :=
  match v with
  | JNum (PyFloat x) => Some x
  | JNum (PyInt n) =>
      match float_of_Z n with
      | S754_infinity _ => None
      | x => Some x
      end
  | JBool b => Some (float_of_Z (if b then 1 else 0))
  | JStr s => FloatText.parse s
  | _ => None
  end.

(** A field annotated [float]. *)
Definition float_field (key : string) (fields : list (string * json))
  : option float :=
  match get key fields with
  | Some v => float_value v
  | None => None
  end.

(** A field annotated [Optional[str] = ""]. *)
Definition optional_str_field (key : string) (fields : list (string * json))
  : option (option string) :=
  match get key fields with
  | None => Some (Some "")
  | Some JNull => Some None
  | Some (JStr s) => Some (Some s)
  | Some _ => None
  end.

Definition expense_item (j : json) : option ExpenseItem.t :=
  match j with
  | JObj fields =>
      match str_field "category" fields, float_field "amount" fields,
            str_field "date" fields,
            optional_str_field "description" fields with
      | Some c, Some a, Some d, Some desc =>
          Some {| ExpenseItem.category := c; ExpenseItem.amount := a;
                  ExpenseItem.date := d; ExpenseItem.description := desc |}
      | _, _, _, _ => None
      end
  | _ => None
  end.

Definition income_item (j : json) : option IncomeItem.t :=
  match j with
  | JObj fields =>
      match str_field "category" fields, float_field "amount" fields,
            str_field "date" fields,
            optional_str_field "description" fields with
      | Some c, Some a, Some d, Some desc =>
          Some {| IncomeItem.category := c; IncomeItem.amount := a;
                  IncomeItem.date := d; IncomeItem.description := desc |}
      | _, _, _, _ => None
      end
  | _ => None
  end.

(** A field annotated [List[T]]: every item must validate. *)
Fixpoint all_valid {A : Type} (item : json -> option A) (l : list json)
  : option (list A) :=
  match l with
  | [] => Some []
  | j :: rest =>
      match item j, all_valid item rest with
      | Some a, Some l' => Some (a :: l')
      | _, _ => None
      end
  end.

Definition list_field {A : Type} (item : json -> option A) (key : string)
    (fields : list (string * json)) : option (list A) :=
  match get key fields with
  | Some (JArr l) => all_valid item l
  | _ => None
  end.

(** The body of POST /api/generate validated as [FarmData]; [None] is the
    validation error the framework answers with status 422. *)
Definition farm_data (j : json) : option FarmData :=
  match j with
  | JObj fields =>
      match str_field "farmer_name" fields, str_field "crop_name" fields,
            str_field "season" fields, float_field "total_acres" fields,
            str_field "sowing_date" fields, str_field "harvest_date" fields,
            str_field "location" fields,
            float_field "total_production" fields,
            list_field expense_item "expenses" fields,
            list_field income_item "incomes" fields with
      | Some fn, Some cn, Some se, Some ta, Some sd, Some hd, Some lo,
        Some tp, Some ex, Some inc =>
          Some {| farmer_name := fn; crop_name := cn; season := se;
                  total_acres := ta; sowing_date := sd; harvest_date := hd;
                  location := lo; total_production := tp;
                  expenses := ex; incomes := inc |}
      | _, _, _, _, _, _, _, _, _, _ => None
      end
  | _ => None
  end.

End Validate.

(** ** Routes *)

Inductive response : Type :=
| JSONBody (status_code : Z) (content : list (string * string))
| FileResponse (path media_type filename : string).

(** POST /api/generate, the body already validated; [created] is the second
    reading of the clock, for the column [created_at].  A request that
    fails is its error: what it left behind is not kept. *)
Definition generate_report_endpoint (lib : Library) (created : datetime)
    (data : FarmData) (w : World) : result (response * World) :=
  r <- create_and_save_pdf lib data w ;;
  let (filename, w1) := r in
  let json_str := json_dumps lib data in
  ins <- Store.insert (reports w1) (farmer_name data) (crop_name data)
           filename json_str (strftime_minute created) ;;
  Ok (JSONBody 200 [("status", "success"); ("filename", filename)],
      {| files := files w1; reports := snd ins |}).

(** POST /api/generate from the raw body: status 422 before anything else
    happens when the body does not validate. *)
Definition post_generate (lib : Library) (created : datetime) (body : json)
    (w : World) : result (response * World) :=
  match Validate.farm_data body with
  | None => Ok (JSONBody 422 [("detail", "validation error")], w)
  | Some data => generate_report_endpoint lib created data w
  end.

(** GET /api/reports. *)
Definition get_reports (w : World) : list Store.row :=
  Store.select_all_desc (reports w).

(** GET /reports/{filename}. *)
Definition download_report (w : World) (filename : string) : response :=
  let path := Str.os_path_join "reports" filename in
  if path_exists w path then
    FileResponse path "application/pdf" filename
  else
    JSONBody 404 [("message", "File not found")].

(** The route [/reports/{filename}]: the path parameter is one segment of
    the URL, not empty and without a slash; no other path reaches the
    handler. *)
Definition route_reports (w : World) (segment : string) : option response :=
  if (String.eqb segment "" || Str.mem "/" segment)%bool then None
  else Some (download_report w segment).

(** What goes out for a response. *)
Inductive delivery : Type :=
| SentJSON (status_code : Z) (content : list (string * string))
| SentFile (media_type filename : string) (content : list Byte.byte).

(** Sending a response.  A [FileResponse] reads its path when it is sent:
    Starlette raises RuntimeError when nothing is there or when what is
    there is not a regular file. *)
Definition deliver (w : World) (r : response) : result delivery :=
  match r with
  | JSONBody status_code content => Ok (SentJSON status_code content)
  | FileResponse path media_type filename =>
      match files w path with
      | Some (File content) => Ok (SentFile media_type filename content)
      | Some Directory =>
          Raise (LibraryError
                   ("RuntimeError: File at path " ++ path ++ " is not a file."))
      | None =>
          Raise (LibraryError
                   ("RuntimeError: File at path " ++ path
                      ++ " does not exist."))
      end
  end.

(** ** The vocabulary of the statements *)

(** The request [generate_charts] sends to matplotlib for given slice
    values. *)
Definition pie_request (slices : list PyNum) : pie_chart :=
  {| figsize := (4, 3); sizes := slices; labels := ["Income"; "Expenses"];
     autopct := "%1.1f%%"; colors_list := ["#4CAF50"; "#FF5722"];
     startangle := 90; axis := "equal"; format := "png"; dpi := 100 |}.

(** The slice values for given totals. *)
Definition slices (income_total expense_total : PyNum) : list PyNum :=
  if py_eq (py_add income_total expense_total) (PyInt 0)
  then [PyInt 1; PyInt 1]
  else [income_total; expense_total].

(** The parts of the document. *)
Definition logo_part (lib : Library) : list flowable :=
  match load_image lib logo_path with
  | Returned _ =>
      [RLImage (FromFile logo_path) (TenthsOfInch 15) (TenthsOfInch 6) "LEFT"]
  | Failed _ => []
  end.

Definition expense_part (data : FarmData) : list flowable :=
  match expenses data with
  | [] => []
  | _ :: _ => [Table (e_data (expenses data)) [150; 100; 100] table_style]
  end.

Definition income_part (data : FarmData) : list flowable :=
  match incomes data with
  | [] => []
  | _ :: _ => [Table (i_data (incomes data)) [150; 100; 100] table_style]
  end.

Definition body (data : FarmData) (m : metrics) (chart_buf : BytesIO)
  : list flowable :=
  ([ Spacer 1 (TenthsOfInch 2);
     Paragraph ("Farm Finance Report: " ++ crop_name data) Title;
     Paragraph ("<b>Farmer:</b> " ++ farmer_name data
                  ++ " | <b>Location:</b> " ++ location data) Normal;
     Spacer 1 (TenthsOfInch 2);
     Table (summary_data m) [250; 150] summary_style;
     Spacer 1 (TenthsOfInch 2);
     RLImage (FromBuffer chart_buf) (Points 250) (Points 180) "CENTER";
     Spacer 1 (TenthsOfInch 2);
     Paragraph "Expense Breakdown" Heading3 ]
   ++ expense_part data
   ++ [ Spacer 1 (TenthsOfInch 2);
        Paragraph "Income Breakdown" Heading3 ]
   ++ income_part data)%list.

(** Where the report goes. *)
Definition report_path (lib : Library) (data : FarmData) : string :=
  Str.os_path_join "reports" (report_filename (now lib) data).

(** The rows of the table that comes right after the heading [heading], if
    a table comes right after it. *)
Fixpoint table_under (heading : string) (els : list flowable)
  : option (list (list string)) :=
  match els with
  | [] => None
  | Paragraph text Heading3 :: rest =>
      if String.eqb text heading then
        match rest with
        | Table rows _ _ :: _ => Some rows
        | _ => None
        end
      else table_under heading rest
  | _ :: rest => table_under heading rest
  end.

Definition is_table (f : flowable) : bool :=
  match f with
  | Table _ _ _ => true
  | _ => false
  end.

Definition count_tables (els : list flowable) : nat :=
  List.length (filter is_table els).

(** Floats added one after the other in binary64, from 0.0 on. *)
Definition float_total (amounts : list float) : float :=
  fold_left (SFadd 53 1024) amounts (S754_zero false).

Definition is_file_image (f : flowable) : bool :=
  match f with
  | RLImage (FromFile _) _ _ _ => true
  | _ => false
  end.

(** Predicates on the characters of a text. *)
Module Chars.

Fixpoint forallb (P : ascii -> bool) (s : string) : bool :=
  match s with
  | EmptyString => true
  | String c s' => P c && forallb P s'
  end.

Definition is_digit (c : ascii) : bool :=
  let n := N_of_ascii c in (N.leb 48 n && N.leb n 57)%bool.

(** The characters of a float printed by [repr]: digits, the point, the
    signs, and the letters of [e], [inf] and [nan]. *)
Definition is_plain (c : ascii) : bool :=
  (is_digit c || Ascii.eqb c "." || Ascii.eqb c "-" || Ascii.eqb c "+"
   || Ascii.eqb c "e" || Ascii.eqb c "i" || Ascii.eqb c "n"
   || Ascii.eqb c "f" || Ascii.eqb c "a")%bool.

End Chars.

Module Money.

Import Chars.

(** Digits in groups of three with a comma between the groups, read from
    the last digit: a first group of one to three digits ends the list. *)
Inductive grouped : list ascii -> Prop :=
| grouped_top (ds : list ascii) :
    (1 <= List.length ds <= 3)%nat ->
    List.forallb is_digit ds = true ->
    grouped ds
| grouped_more (a b c : ascii) (rest : list ascii) :
    is_digit a = true -> is_digit b = true -> is_digit c = true ->
    grouped rest ->
    grouped (a :: b :: c :: ","%char :: rest).

(** The text of an amount of money: the label, a sign, the whole part in
    groups of three digits, a point and two digits. *)
Definition money (text : string) : Prop :=
  exists (s : bool) (whole : string) (d1 d2 : ascii),
    text = "INR " ++ Fmt.sign s ++ whole ++ "." ++ String d1 (String d2 "")
    /\ grouped (rev (list_ascii_of_string whole))
    /\ is_digit d1 = true /\ is_digit d2 = true.

Definition is_finite (x : float) : bool :=
  match x with
  | S754_zero _ | S754_finite _ _ _ => true
  | _ => false
  end.

End Money.

Module Listing.

Import Store.

(** [x] comes before [y] in the list. *)
Definition before (x y : row) (l : list row) : Prop :=
  exists l1 l2 l3, l = (l1 ++ x :: l2 ++ y :: l3)%list.

(** Rows from the largest id down. *)
Definition descending (x y : row) : Prop := id y <= id x.

(** [db'] is [db] after any number of successful inserts. *)
Inductive later (db : database) : database -> Prop :=
| later_now : later db db
| later_insert (db1 db2 : database) (new_id : Z)
    (farmer crop file json created : string) :
    later db db1 ->
    insert db1 farmer crop file json created = Ok (new_id, db2) ->
    later db db2.

End Listing.

(** ** Requests and serialised records *)

(** The keys a body must have, and the keys an expense or income item must
    have: the fields the models declare without a default. *)
Definition required_keys : list string :=
  ["farmer_name"; "crop_name"; "season"; "total_acres"; "sowing_date";
   "harvest_date"; "location"; "total_production"; "expenses"; "incomes"].

Definition item_keys : list string := ["category"; "amount"; "date"].

Definition optional_str_json (o : option string) : json :=
  match o with
  | Some s => JStr s
  | None => JNull
  end.

(** [data.dict()]: the record as nested dictionaries and lists. *)
Definition ExpenseItem_dict (e : ExpenseItem.t) : json :=
  JObj [ ("category", JStr (ExpenseItem.category e));
         ("amount", JNum (PyFloat (ExpenseItem.amount e)));
         ("date", JStr (ExpenseItem.date e));
         ("description", optional_str_json (ExpenseItem.description e)) ].

Definition IncomeItem_dict (i : IncomeItem.t) : json :=
  JObj [ ("category", JStr (IncomeItem.category i));
         ("amount", JNum (PyFloat (IncomeItem.amount i)));
         ("date", JStr (IncomeItem.date i));
         ("description", optional_str_json (IncomeItem.description i)) ].

Definition FarmData_dict (data : FarmData) : json :=
  JObj [ ("farmer_name", JStr (farmer_name data));
         ("crop_name", JStr (crop_name data));
         ("season", JStr (season data));
         ("total_acres", JNum (PyFloat (total_acres data)));
         ("sowing_date", JStr (sowing_date data));
         ("harvest_date", JStr (harvest_date data));
         ("location", JStr (location data));
         ("total_production", JNum (PyFloat (total_production data)));
         ("expenses", JArr (map ExpenseItem_dict (expenses data)));
         ("incomes", JArr (map IncomeItem_dict (incomes data))) ].

(** ** Clock readings *)





(** ** Sample inputs *)

Module Sample.

(** matplotlib on a pie: [Axes.pie] raises ValueError when a wedge size is
    negative; otherwise a PNG comes back (here its eight-byte
    signature). *)
Definition png : list Byte.byte :=
  [Byte.x89; Byte.x50; Byte.x4e; Byte.x47;
   Byte.x0d; Byte.x0a; Byte.x1a; Byte.x0a].

Definition pie (chart : pie_chart) : outcome (list Byte.byte) :=
  if existsb (fun x => py_lt x (PyInt 0)) (sizes chart)
  then Failed "ValueError: Wedge sizes 'x' must be non negative values"
  else Returned png.

(** A PDF, by its header. *)
Definition pdf : list Byte.byte :=
  [Byte.x25; Byte.x50; Byte.x44; Byte.x46; Byte.x2d].

Definition clock : datetime :=
  {| year := 2024; month := 3; day := 20;
     hour := 9; minute := 5; second := 7 |}.

(** A deployment with the logo in place.  No statement looks inside the
    serialised copy, so a fixed text stands for it. *)
Definition library : Library :=
  {| now := clock;
     load_image := fun _ => Returned tt;
     render_pie := pie;
     build := fun _ _ => Returned pdf;
     json_dumps := fun _ => "{}" |}.

(** The same deployment without the logo file: the image constructor
    returns all the same, and building a document that holds an image read
    from a file ends in reportlab's error on the file it cannot open. *)
Definition library_missing_logo : Library :=
  {| now := clock;
     load_image := fun _ => Returned tt;
     render_pie := pie;
     build := fun _ els =>
       if existsb is_file_image els
       then Failed "OSError: Cannot open resource static/logo.png"
       else Returned pdf;
     json_dumps := fun _ => "{}" |}.

Definition seeds : ExpenseItem.t :=
  {| ExpenseItem.category := "Seeds";
     ExpenseItem.amount := float_of_Z 2000;
     ExpenseItem.date := "2023-11-02";
     ExpenseItem.description := Some "" |}.

Definition sale : IncomeItem.t :=
  {| IncomeItem.category := "Sale";
     IncomeItem.amount := float_of_Z 50000;
     IncomeItem.date := "2024-03-20";
     IncomeItem.description := Some "" |}.

(** The record of the end-to-end scenario. *)
Definition ravi : FarmData :=
  {| farmer_name := "Ravi Kumar"; crop_name := "Wheat"; season := "Rabi";
     total_acres := float_of_Z 2; sowing_date := "2023-11-01";
     harvest_date := "2024-03-15"; location := "Nashik";
     total_production := float_of_Z 40;
     expenses := [seeds]; incomes := [sale] |}.

(** The same farm with nothing entered yet, and with no land entered. *)
Definition blank : FarmData :=
  {| farmer_name := "Ravi Kumar"; crop_name := "Wheat"; season := "Rabi";
     total_acres := float_of_Z 2; sowing_date := "2023-11-01";
     harvest_date := "2024-03-15"; location := "Nashik";
     total_production := float_of_Z 40;
     expenses := []; incomes := [] |}.

Definition landless : FarmData :=
  {| farmer_name := "Ravi Kumar"; crop_name := "Wheat"; season := "Rabi";
     total_acres := S754_zero false; sowing_date := "2023-11-01";
     harvest_date := "2024-03-15"; location := "Nashik";
     total_production := float_of_Z 40;
     expenses := [seeds]; incomes := [sale] |}.

(** A season with several entries: expenses of 1200.5, 845.25 and 300.1,
    incomes of 30000.0 and 1500.75, on 3.0 acres. *)
Definition full_season : FarmData :=
  {| farmer_name := "Meena Patil"; crop_name := "Onion"; season := "Kharif";
     total_acres := S754_finite false 6755399441055744 (-51);
     sowing_date := "2023-06-10"; harvest_date := "2023-10-05";
     location := "Nashik";
     total_production := float_of_Z 90;
     expenses :=
       [ {| ExpenseItem.category := "Seeds";
            ExpenseItem.amount := S754_finite false 5279854836580352 (-42);
            ExpenseItem.date := "2023-06-11";
            ExpenseItem.description := Some "" |};
         {| ExpenseItem.category := "Fertilizer";
            ExpenseItem.amount := S754_finite false 7434897627021312 (-43);
            ExpenseItem.date := "2023-07-02";
            ExpenseItem.description := Some "urea" |};
         {| ExpenseItem.category := "Labour";
            ExpenseItem.amount := S754_finite false 5279415031929242 (-44);
            ExpenseItem.date := "2023-09-28";
            ExpenseItem.description := None |} ];
     incomes :=
       [ {| IncomeItem.category := "Sale";
            IncomeItem.amount := S754_finite false 8246337208320000 (-38);
            IncomeItem.date := "2023-10-12";
            IncomeItem.description := Some "" |};
         {| IncomeItem.category := "Sale";
            IncomeItem.amount := S754_finite false 6600368301539328 (-42);
            IncomeItem.date := "2023-10-20";
            IncomeItem.description := Some "" |} ] |}.

(** An expense of 1e38 on 1e-300 acres. *)
Definition vast : FarmData :=
  {| farmer_name := "Ravi Kumar"; crop_name := "Wheat"; season := "Rabi";
     total_acres := S754_finite false 6032057205060441 (-1049);
     sowing_date := "2023-11-01";
     harvest_date := "2024-03-15"; location := "Nashik";
     total_production := float_of_Z 40;
     expenses :=
       [ {| ExpenseItem.category := "Seeds";
            ExpenseItem.amount := S754_finite false 5293955920339377 74;
            ExpenseItem.date := "2023-11-02";
            ExpenseItem.description := Some "" |} ];
     incomes := [sale] |}.

(** A crop name of two words. *)
Definition basmati : FarmData :=
  {| farmer_name := "Ravi Kumar"; crop_name := "Basmati Rice";
     season := "Kharif";
     total_acres := float_of_Z 2; sowing_date := "2023-06-01";
     harvest_date := "2023-11-15"; location := "Nashik";
     total_production := float_of_Z 40;
     expenses := []; incomes := [] |}.

(** The request body of the end-to-end scenario. *)
Definition ravi_body : json :=
  JObj [ ("farmer_name", JStr "Ravi Kumar"); ("crop_name", JStr "Wheat");
         ("season", JStr "Rabi"); ("total_acres", JNum (PyInt 2));
         ("sowing_date", JStr "2023-11-01");
         ("harvest_date", JStr "2024-03-15"); ("location", JStr "Nashik");
         ("total_production", JNum (PyInt 40));
         ("expenses",
          JArr [JObj [("category", JStr "Seeds"); ("amount", JNum (PyInt 2000));
                      ("date", JStr "2023-11-02")]]);
         ("incomes",
          JArr [JObj [("category", JStr "Sale"); ("amount", JNum (PyInt 50000));
                      ("date", JStr "2024-03-20")]]) ].

(** A body with a refund entered as a negative income. *)
Definition refund_body : json :=
  JObj [ ("farmer_name", JStr "Ravi Kumar"); ("crop_name", JStr "Wheat");
         ("season", JStr "Rabi"); ("total_acres", JNum (PyInt 2));
         ("sowing_date", JStr "2023-11-01");
         ("harvest_date", JStr "2024-03-15"); ("location", JStr "Nashik");
         ("total_production", JNum (PyInt 40));
         ("expenses",
          JArr [JObj [("category", JStr "Seeds"); ("amount", JNum (PyInt 1));
                      ("date", JStr "2023-11-02")]]);
         ("incomes",
          JArr [JObj [("category", JStr "Refund"); ("amount", JNum (PyInt (-3)));
                      ("date", JStr "2024-03-20")]]) ].

Definition world : World :=
  {| files := fun p => if String.eqb p "reports" then Some Directory
                       else None;
     reports := Store.empty |}.

(** The same, with the two entries every directory has: itself and its
    parent. *)
Definition world_with_dots : World :=
  {| files := fun p =>
       if (String.eqb p "reports" || String.eqb p "reports/."
           || String.eqb p "reports/..")%bool
       then Some Directory else None;
     reports := Store.empty |}.

End Sample.

(** * Properties *)

(** ** Numbers *)

(** A float that compares greater than 0 is not a zero, so dividing by it
    does not raise. *)
Lemma py_truediv_positive (a : PyNum) (x : float) :
  py_gt (PyFloat x) (PyInt 0) = true ->
  py_truediv a x = Ok (PyFloat (fdiv (to_float a) x)).
Proof.
  destruct x as [s | s | | s m e]; try reflexivity.
  unfold py_gt; simpl. discriminate.
Qed.

Lemma py_eq_not_gt (a b : PyNum) : py_eq a b = true -> py_gt a b = false.
Proof.
  unfold py_eq, py_gt.
  destruct (py_cmp a b) as [[ | | ] | ]; congruence.
Qed.

(** Adding to a zero: the sign of the zero does not change whether the sum
    is zero. *)
Lemma fadd_zero_sign (y : float) :
  py_eq (PyFloat (fadd (S754_zero false) y)) (PyInt 0)
  = py_eq (PyFloat (fadd (S754_zero true) y)) (PyInt 0).
Proof. destruct y as [[ | ] | [ | ] | | s m e]; reflexivity. Qed.

Lemma fadd_zero_l (x : float) :
  fadd (S754_zero false) x = x \/
  (x = S754_zero true /\ fadd (S754_zero false) x = S754_zero false).
Proof. destruct x as [[ | ] | [ | ] | | s m e]; auto. Qed.

(** [sum([a, b]) == 0] is [a + b == 0]. *)
Lemma py_sum_pair_eq_zero (a b : PyNum) :
  py_eq (py_sum [a; b]) (PyInt 0) = py_eq (py_add a b) (PyInt 0).
Proof.
  unfold py_sum; cbn [fold_left].
  destruct a as [m | x].
  - reflexivity.
  - change (py_add (PyInt 0) (PyFloat x))
      with (PyFloat (fadd (S754_zero false) x)).
    destruct (fadd_zero_l x) as [-> | [-> ->]]; [reflexivity | ].
    destruct b as [n | y]; unfold py_add, to_float; apply fadd_zero_sign.
Qed.

(** [sum] of floats is the binary64 additions from 0.0 on, in the order of
    the list; only the empty sum is the int 0. *)
Lemma fold_py_add_floats (l : list float) (acc : float) :
  fold_left py_add (map PyFloat l) (PyFloat acc)
  = PyFloat (fold_left (SFadd 53 1024) l acc).
Proof.
  revert acc. induction l as [ | x l IH]; intros acc; [reflexivity | ].
  cbn [map fold_left].
  change (py_add (PyFloat acc) (PyFloat x))
    with (PyFloat (SFadd 53 1024 acc x)).
  apply IH.
Qed.

Lemma py_sum_floats (l : list float) :
  py_sum (map PyFloat l)
  = match l with
    | [] => PyInt 0
    | _ :: _ => PyFloat (float_total l)
    end.
Proof.
  destruct l as [ | x l]; [reflexivity | ].
  unfold py_sum, float_total. cbn [map fold_left].
  change (py_add (PyInt 0) (PyFloat x))
    with (PyFloat (SFadd 53 1024 (S754_zero false) x)).
  apply fold_py_add_floats.
Qed.

Lemma to_float_py_sum (l : list float) :
  to_float (py_sum (map PyFloat l)) = float_total l.
Proof. rewrite py_sum_floats. destruct l; reflexivity. Qed.

(** Python's [x > 0] and [x == 0] on a float are the comparisons of
    IEEE 754 with a zero. *)
Lemma float_cmp_zero (x : float) :
  float_cmp_Z x 0 = option_map CompOpp (SFcompare (S754_zero false) x).
Proof.
  destruct x as [s | [ | ] | | [ | ] m e]; try reflexivity;
    destruct e as [ | p | p]; try reflexivity;
    cbn [float_cmp_Z SFcompare option_map CompOpp]; f_equal;
    assert (0 < 2 ^ Zpos p) by (apply Z.pow_pos_nonneg; lia).
  - apply Z.compare_lt_iff. nia.
  - apply Z.compare_gt_iff. nia.
Qed.

Lemma py_gt_zero (x : float) :
  py_gt (PyFloat x) (PyInt 0) = SFltb (S754_zero false) x.
Proof.
  unfold py_gt, SFltb. cbn [py_cmp]. rewrite float_cmp_zero.
  destruct (SFcompare (S754_zero false) x) as [[ | | ] | ]; reflexivity.
Qed.

Lemma py_eq_zero (x : float) :
  py_eq (PyFloat x) (PyInt 0) = SFeqb x (S754_zero false).
Proof. destruct x as [s | [ | ] | | [ | ] m e]; try reflexivity;
  unfold py_eq; cbn [py_cmp]; rewrite float_cmp_zero; reflexivity. Qed.

(** The figures always come out: the division is guarded. *)
Lemma report_metrics_value (data : FarmData) :
  report_metrics data =
  Ok {| total_inc :=
          py_sum (map (fun i => PyFloat (IncomeItem.amount i)) (incomes data));
        total_exp :=
          py_sum (map (fun e => PyFloat (ExpenseItem.amount e)) (expenses data));
        profit :=
          py_sub
            (py_sum (map (fun i => PyFloat (IncomeItem.amount i))
                         (incomes data)))
            (py_sum (map (fun e => PyFloat (ExpenseItem.amount e))
                         (expenses data)));
        cost_per_acre :=
          if py_gt (PyFloat (total_acres data)) (PyInt 0)
          then PyFloat
                 (fdiv (to_float
                          (py_sum (map (fun e => PyFloat (ExpenseItem.amount e))
                                       (expenses data))))
                       (total_acres data))
          else PyInt 0 |}.
Proof.
  unfold report_metrics.
  destruct (py_gt (PyFloat (total_acres data)) (PyInt 0)) eqn:Hacres.
  - rewrite (py_truediv_positive _ _ Hacres). reflexivity.
  - reflexivity.
Qed.

(** ** The chart renderer and the document *)

Lemma generate_charts_value (lib : Library) (a b : PyNum) :
  generate_charts lib a b =
  match render_pie lib (pie_request (slices a b)) with
  | Returned png => Ok {| getvalue := png; tell := 0 |}
  | Failed what => Raise (LibraryError what)
  end.
Proof.
  unfold generate_charts, slices.
  rewrite py_sum_pair_eq_zero.
  destruct (py_eq (py_add a b) (PyInt 0));
    unfold pie_request;
    match goal with |- context [render_pie lib ?c] =>
      destruct (render_pie lib c) end; reflexivity.
Qed.

(** [report_elements] is the logo part, if any, then the body; it fails
    exactly when the chart does. *)
Lemma report_elements_value (lib : Library) (data : FarmData) :
  exists m, report_metrics data = Ok m /\
    report_elements lib data =
    match generate_charts lib (total_inc m) (total_exp m) with
    | Ok chart_buf => Ok (logo_part lib ++ body data m chart_buf)%list
    | Raise e => Raise e
    end.
Proof.
  eexists. split; [apply report_metrics_value | ].
  unfold report_elements. rewrite report_metrics_value.
  cbv beta iota delta [bind total_inc total_exp].
  match goal with |- context [generate_charts lib ?a ?b] =>
    destruct (generate_charts lib a b) as [chart_buf | e] end;
    [ | reflexivity].
  unfold logo_part, body, expense_part, income_part.
  destruct (load_image lib logo_path), (expenses data), (incomes data);
    reflexivity.
Qed.

(** [create_and_save_pdf], call by call: the figures, then the chart, then
    the build. *)
Lemma create_and_save_pdf_value (lib : Library) (data : FarmData) (w : World) :
  exists m, report_metrics data = Ok m /\
    create_and_save_pdf lib data w =
    match render_pie lib (pie_request (slices (total_inc m) (total_exp m))) with
    | Failed what => Raise (LibraryError what)
    | Returned png =>
        match build lib (report_path lib data)
                (logo_part lib
                   ++ body data m {| getvalue := png; tell := 0 |})%list with
        | Failed what => Raise (LibraryError what)
        | Returned pdf =>
            Ok (report_filename (now lib) data,
                write_file w (report_path lib data) pdf)
        end
    end.
Proof.
  destruct (report_elements_value lib data) as [m [Hm Hels]].
  exists m. split; [exact Hm | ].
  unfold create_and_save_pdf. rewrite Hels, generate_charts_value.
  fold (report_path lib data).
  destruct (render_pie lib _) as [png | what]; [ | reflexivity].
  cbv beta iota delta [bind].
  destruct (build lib _ _) as [pdf | what]; reflexivity.
Qed.

(** ** The claims *)

(** C1. The composer's total income is the sum of the income amounts, its
    total expense the sum of the expense amounts and its profit their
    difference: the binary64 additions of the amounts in the order they
    were entered, and the binary64 subtraction of the two totals (the int
    0 where nothing was entered).  These are the figures the summary table
    of the document shows.  For a record with no expenses and no incomes
    the three are 0 and, the chart library drawing the two equal slices
    and the layout engine writing the file, [create_and_save_pdf] returns
    the file name. *)
Theorem composer_totals (lib : Library) (data : FarmData) (w : World) :
  (exists m, report_metrics data = Ok m /\
     total_inc m
       = match incomes data with
         | [] => PyInt 0
         | _ :: _ =>
             PyFloat (float_total (map IncomeItem.amount (incomes data)))
         end /\
     total_exp m
       = match expenses data with
         | [] => PyInt 0
         | _ :: _ =>
             PyFloat (float_total (map ExpenseItem.amount (expenses data)))
         end /\
     profit m
       = match incomes data, expenses data with
         | [], [] => PyInt 0
         | _, _ =>
             PyFloat
               (SFsub 53 1024
                  (float_total (map IncomeItem.amount (incomes data)))
                  (float_total (map ExpenseItem.amount (expenses data))))
         end /\
     firstn 4 (summary_data m)
       = [ ["Financial Metrics"; "Value"];
           ["Total Income";
            "INR " ++ Fmt.format_float_2f
                        (float_total (map IncomeItem.amount (incomes data)))];
           ["Total Expense";
            "INR " ++ Fmt.format_float_2f
                        (float_total
                           (map ExpenseItem.amount (expenses data)))];
           ["Net Profit/Loss";
            "INR " ++ Fmt.format_float_2f
                        (SFsub 53 1024
                           (float_total
                              (map IncomeItem.amount (incomes data)))
                           (float_total
                              (map ExpenseItem.amount (expenses data))))] ] /\
     forall els, report_elements lib data = Ok els ->
       In (Table (summary_data m) [250; 150] summary_style) els)
  /\
  (expenses data = [] -> incomes data = [] ->
   (exists png, render_pie lib (pie_request [PyInt 1; PyInt 1]) = Returned png) ->
   (forall path els, exists pdf, build lib path els = Returned pdf) ->
   exists m w',
     report_metrics data = Ok m /\
     total_inc m = PyInt 0 /\ total_exp m = PyInt 0 /\ profit m = PyInt 0 /\
     create_and_save_pdf lib data w = Ok (report_filename (now lib) data, w')).
Proof.
  split.
  - destruct (report_elements_value lib data) as [m [Hm Hels]].
    exists m. split; [exact Hm | ].
    assert (Hin : forall els, report_elements lib data = Ok els ->
              In (Table (summary_data m) [250; 150] summary_style) els).
    { intros els H. rewrite Hels in H.
      destruct (generate_charts lib _ _) as [chart_buf | e]; [ | discriminate].
      injection H as <-.
      apply in_or_app. right. unfold body. simpl. tauto. }
    rewrite report_metrics_value in Hm. injection Hm as <-.
    split; [ | split; [ | split; [ | split; [ | exact Hin]]]];
      cbv beta iota delta [total_inc total_exp profit summary_data firstn];
      try rewrite <- (map_map IncomeItem.amount PyFloat);
      try rewrite <- (map_map ExpenseItem.amount PyFloat);
      unfold Fmt.format_2f; rewrite ?to_float_py_sum, ?py_sum_floats;
      destruct (incomes data), (expenses data); reflexivity.
  - intros Hexp Hinc [png Hpng] Hbuild.
    destruct (create_and_save_pdf_value lib data w) as [m [Hm Hrun]].
    assert (Hzero : total_inc m = PyInt 0 /\ total_exp m = PyInt 0
                    /\ profit m = PyInt 0).
    { rewrite report_metrics_value in Hm. injection Hm as <-.
      rewrite Hexp, Hinc. repeat split. }
    destruct Hzero as [Hi [He Hp]].
    rewrite Hi, He in Hrun.
    change (slices (PyInt 0) (PyInt 0)) with [PyInt 1; PyInt 1] in Hrun.
    rewrite Hpng in Hrun.
    destruct (Hbuild (report_path lib data)
                (logo_part lib ++ body data m {| getvalue := png; tell := 0 |})%list)
      as [pdf Hpdf].
    rewrite Hpdf in Hrun.
    exists m, (write_file w (report_path lib data) pdf).
    repeat split; assumption.
Qed.

Lemma composer_totals_witness :
  (exists m w',
     report_metrics Sample.blank = Ok m /\
     total_inc m = PyInt 0 /\ total_exp m = PyInt 0 /\ profit m = PyInt 0 /\
     create_and_save_pdf Sample.library Sample.blank Sample.world
     = Ok (report_filename (now Sample.library) Sample.blank, w'))
  /\
  (exists m,
     report_metrics Sample.full_season = Ok m /\
     total_inc m = PyFloat (S754_finite false 8658860227166208 (-38)) /\
     total_exp m = PyFloat (S754_finite false 5158578704036659 (-41)) /\
     profit m = PyFloat (S754_finite false 8014037889161626 (-38)) /\
     firstn 4 (summary_data m)
     = [ ["Financial Metrics"; "Value"];
         ["Total Income"; "INR 31,500.75"];
         ["Total Expense"; "INR 2,345.85"];
         ["Net Profit/Loss"; "INR 29,154.90"] ])
  /\
  (exists m,
     report_metrics Sample.ravi = Ok m /\
     total_inc m = PyFloat (S754_finite false 6871947673600000 (-37)) /\
     total_exp m = PyFloat (S754_finite false 8796093022208000 (-42)) /\
     profit m = PyFloat (S754_finite false 6597069766656000 (-37)) /\
     firstn 4 (summary_data m)
     = [ ["Financial Metrics"; "Value"];
         ["Total Income"; "INR 50,000.00"];
         ["Total Expense"; "INR 2,000.00"];
         ["Net Profit/Loss"; "INR 48,000.00"] ]).
Proof.
  split; [ | split].
  - apply (proj2 (composer_totals Sample.library Sample.blank Sample.world)).
    + reflexivity.
    + reflexivity.
    + exists Sample.png. reflexivity.
    + intros path els. exists Sample.pdf. reflexivity.
  - destruct (proj1 (composer_totals Sample.library Sample.full_season
                       Sample.world))
      as [m [Hm [Hi [He [Hp [Hrows _]]]]]].
    exists m. split; [exact Hm | ].
    rewrite Hi, He, Hp, Hrows. repeat split; vm_compute; reflexivity.
  - destruct (proj1 (composer_totals Sample.library Sample.ravi Sample.world))
      as [m [Hm [Hi [He [Hp [Hrows _]]]]]].
    exists m. split; [exact Hm | ].
    rewrite Hi, He, Hp, Hrows. repeat split; vm_compute; reflexivity.
Defined.

(** C2. The cost per acre is the total expense divided by the acreage, in
    binary64, when the acreage is greater than 0, and the integer 0
    otherwise; the summary table shows it with two decimals.  With an
    acreage of zero it is 0 whatever the expenses, the summary table shows
    it as "INR 0.00", and no run of the composer ends in a division by
    zero. *)
Theorem cost_per_acre_guarded (lib : Library) (data : FarmData) (w : World) :
  (exists m, report_metrics data = Ok m /\
     cost_per_acre m =
       (if SFltb (S754_zero false) (total_acres data)
        then PyFloat
               (SFdiv 53 1024
                  (float_total (map ExpenseItem.amount (expenses data)))
                  (total_acres data))
        else PyInt 0) /\
     nth 4 (summary_data m) []
       = ["Cost of Cultivation / Acre";
          "INR " ++ Fmt.format_float_2f
                      (if SFltb (S754_zero false) (total_acres data)
                       then SFdiv 53 1024
                              (float_total
                                 (map ExpenseItem.amount (expenses data)))
                              (total_acres data)
                       else S754_zero false)])
  /\
  (py_eq (PyFloat (total_acres data)) (PyInt 0) = true ->
   exists m, report_metrics data = Ok m /\
     cost_per_acre m = PyInt 0 /\
     nth 4 (summary_data m) []
       = ["Cost of Cultivation / Acre"; "INR 0.00"])
  /\
  create_and_save_pdf lib data w <> Raise ZeroDivisionError
  /\
  (SFeqb (total_acres data) (S754_zero false) = true ->
   exists m, report_metrics data = Ok m /\
     cost_per_acre m = PyInt 0 /\
     nth 4 (summary_data m) []
       = ["Cost of Cultivation / Acre"; "INR 0.00"]).
Proof.
  assert (Hguard : py_eq (PyFloat (total_acres data)) (PyInt 0) = true ->
            exists m, report_metrics data = Ok m /\
              cost_per_acre m = PyInt 0 /\
              nth 4 (summary_data m) []
                = ["Cost of Cultivation / Acre"; "INR 0.00"]).
  { intros Hzero. apply py_eq_not_gt in Hzero.
    eexists. split; [apply report_metrics_value | ].
    cbv beta iota delta [cost_per_acre summary_data nth].
    rewrite Hzero. split; reflexivity. }
  split; [ | split; [exact Hguard | split]].
  - eexists. split; [apply report_metrics_value | ].
    cbv beta iota delta [cost_per_acre summary_data nth].
    rewrite <- (map_map ExpenseItem.amount PyFloat).
    rewrite to_float_py_sum, py_gt_zero.
    destruct (SFltb (S754_zero false) (total_acres data)); split; reflexivity.
  - destruct (create_and_save_pdf_value lib data w) as [m [_ ->]].
    destruct (render_pie lib _); [ | discriminate].
    destruct (build lib _ _); discriminate.
  - intros Hzero. apply Hguard. rewrite py_eq_zero. exact Hzero.
Qed.

Lemma cost_per_acre_guarded_witness :
  (exists m, report_metrics Sample.landless = Ok m /\
     cost_per_acre m = PyInt 0 /\
     nth 4 (summary_data m) [] = ["Cost of Cultivation / Acre"; "INR 0.00"])
  /\
  (exists m, report_metrics Sample.ravi = Ok m /\
     cost_per_acre m = PyFloat (S754_finite false 8796093022208000 (-43)) /\
     nth 4 (summary_data m) []
     = ["Cost of Cultivation / Acre"; "INR 1,000.00"])
  /\
  (exists m, report_metrics Sample.full_season = Ok m /\
     cost_per_acre m = PyFloat (S754_finite false 6878104938715545 (-43)) /\
     nth 4 (summary_data m) []
     = ["Cost of Cultivation / Acre"; "INR 781.95"]).
Proof.
  split; [ | split].
  - apply (proj1 (proj2 (cost_per_acre_guarded
                           Sample.library Sample.landless Sample.world))).
    reflexivity.
  - destruct (proj1 (cost_per_acre_guarded
                       Sample.library Sample.ravi Sample.world))
      as [m [Hm [Hc Hcell]]].
    exists m. split; [exact Hm | ].
    rewrite Hc, Hcell. split; vm_compute; reflexivity.
  - destruct (proj1 (cost_per_acre_guarded
                       Sample.library Sample.full_season Sample.world))
      as [m [Hm [Hc Hcell]]].
    exists m. split; [exact Hm | ].
    rewrite Hc, Hcell. split; vm_compute; reflexivity.
Defined.

(** C3, as the code has it.  The chart renderer has no error of its own and
    handles none: it answers with the image buffer of the PNG the chart
    library returns, rewound to position 0, or with the library's error.
    The slice values it hands over are 1 and 1 whenever
    [income_total + expense_total == 0] and the two totals otherwise, so a
    pie whose slices sum to 0 is never requested. *)
Theorem generate_charts_answer (lib : Library) (income_total expense_total : PyNum) :
  generate_charts lib income_total expense_total =
    match render_pie lib (pie_request (slices income_total expense_total)) with
    | Returned png => Ok {| getvalue := png; tell := 0 |}
    | Failed what => Raise (LibraryError what)
    end
  /\ slices income_total expense_total =
       (if py_eq (py_add income_total expense_total) (PyInt 0)
        then [PyInt 1; PyInt 1] else [income_total; expense_total])
  /\ py_eq (py_sum (slices income_total expense_total)) (PyInt 0) = false.
Proof.
  split; [apply generate_charts_value | split; [reflexivity | ]].
  unfold slices.
  destruct (py_eq (py_add income_total expense_total) (PyInt 0)) eqn:Hsum.
  - reflexivity.
  - rewrite py_sum_pair_eq_zero. exact Hsum.
Qed.

(** C3 as stated fails: with an income total of -3 and an expense total of 1
    the sum is not 0, the totals go to matplotlib unchanged, and its error
    on a negative wedge size is what the renderer answers. *)
Lemma generate_charts_negative_total :
  generate_charts Sample.library
    (PyFloat (float_of_Z (-3))) (PyFloat (float_of_Z 1))
  = Raise (LibraryError
             "ValueError: Wedge sizes 'x' must be non negative values").
Proof. reflexivity. Qed.

(** C9, at the failing input.  The [try] covers the construction of the
    logo image only, and that returns whether the file is there or not.
    So the logo image is the first element of the document, and when the
    build cannot open its file the build's error is the composer's result:
    no report is written, where C9 has the report produced without the
    logo. *)
Theorem missing_logo_aborts_report
    (lib : Library) (data : FarmData) (w : World) (loaded : unit) :
  load_image lib logo_path = Returned loaded ->
  (forall path els,
     existsb is_file_image els = true ->
     exists what, build lib path els = Failed what) ->
  (forall els,
     report_elements lib data = Ok els ->
     exists rest,
       els = RLImage (FromFile logo_path) (TenthsOfInch 15) (TenthsOfInch 6)
               "LEFT" :: rest)
  /\ exists what, create_and_save_pdf lib data w = Raise (LibraryError what).
Proof.
  intros Hlogo Hbuild.
  destruct (report_elements_value lib data) as [m [Hm Hels]].
  destruct (create_and_save_pdf_value lib data w) as [m' [Hm' Hrun]].
  assert (m' = m) by congruence. subst m'.
  rewrite generate_charts_value in Hels.
  unfold logo_part in Hels, Hrun. rewrite Hlogo in Hels, Hrun.
  split.
  - intros els H. rewrite Hels in H.
    destruct (render_pie lib _) as [png | what]; [ | discriminate].
    injection H as <-. eexists. reflexivity.
  - destruct (render_pie lib _) as [png | what].
    + destruct (Hbuild (report_path lib data)
                  (RLImage (FromFile logo_path) (TenthsOfInch 15)
                     (TenthsOfInch 6) "LEFT"
                   :: body data m {| getvalue := png; tell := 0 |})
                  eq_refl) as [what Hwhat].
      cbn [app] in Hrun. rewrite Hwhat in Hrun. exists what. exact Hrun.
    + exists what. exact Hrun.
Qed.

Lemma missing_logo_aborts_report_witness :
  (forall els,
     report_elements Sample.library_missing_logo Sample.ravi = Ok els ->
     exists rest,
       els = RLImage (FromFile logo_path) (TenthsOfInch 15) (TenthsOfInch 6)
               "LEFT" :: rest)
  /\ exists what,
       create_and_save_pdf Sample.library_missing_logo Sample.ravi Sample.world
       = Raise (LibraryError what).
Proof.
  apply (missing_logo_aborts_report Sample.library_missing_logo
           Sample.ravi Sample.world tt eq_refl).
  intros path els Hels. eexists.
  change (build Sample.library_missing_logo path els)
    with (if existsb is_file_image els
          then @Failed (list Byte.byte)
                 "OSError: Cannot open resource static/logo.png"
          else Returned Sample.pdf).
  rewrite Hels. reflexivity.
Defined.

(** The request of the specification's scenario, the logo file missing:
    the body validates and the request ends in the build's error. *)
Example scenario_missing_logo :
  create_and_save_pdf Sample.library_missing_logo Sample.ravi Sample.world
  = Raise (LibraryError "OSError: Cannot open resource static/logo.png")
  /\ post_generate Sample.library_missing_logo Sample.clock Sample.ravi_body
       Sample.world
     = Raise (LibraryError "OSError: Cannot open resource static/logo.png").
Proof. split; reflexivity. Qed.

(** ** Characters of the texts the service builds *)

Module CharsFacts.

Import Chars.

Lemma forallb_app (P : ascii -> bool) (a b : string) :
  forallb P (a ++ b) = (forallb P a && forallb P b)%bool.
Proof.
  induction a as [ | c a IH]; simpl; [reflexivity | ].
  rewrite IH. apply andb_assoc.
Qed.

Lemma forallb_impl (P Q : ascii -> bool) (s : string) :
  (forall c, P c = true -> Q c = true) ->
  forallb P s = true -> forallb Q s = true.
Proof.
  intros HPQ. induction s as [ | c s IH]; simpl; [reflexivity | ].
  intros H. apply andb_true_iff in H as [Hc Hs].
  rewrite (HPQ c Hc), (IH Hs). reflexivity.
Qed.

Lemma forallb_of_list (P : ascii -> bool) (l : list ascii) :
  forallb P (string_of_list_ascii l) = List.forallb P l.
Proof. induction l as [ | c l IH]; simpl; [ | rewrite IH]; reflexivity. Qed.

Lemma forallb_to_list (P : ascii -> bool) (s : string) :
  List.forallb P (list_ascii_of_string s) = forallb P s.
Proof. induction s as [ | c s IH]; simpl; [ | rewrite IH]; reflexivity. Qed.

Lemma list_forallb_rev (P : ascii -> bool) (l : list ascii) :
  List.forallb P (rev l) = List.forallb P l.
Proof.
  induction l as [ | c l IH]; simpl; [reflexivity | ].
  rewrite List.forallb_app, IH. simpl.
  rewrite andb_true_r. apply andb_comm.
Qed.

Lemma forallb_substring (P : ascii -> bool) (s : string) :
  forallb P s = true ->
  forall n m, forallb P (substring n m s) = true.
Proof.
  induction s as [ | c s IH]; intros H n m.
  - destruct n, m; reflexivity.
  - simpl in H. apply andb_true_iff in H as [Hc Hs].
    destruct n as [ | n]; simpl.
    + destruct m as [ | m]; simpl; [reflexivity | ].
      rewrite Hc. apply IH, Hs.
    + apply IH, Hs.
Qed.

Lemma has_whitespace_app (a b : string) :
  Str.has_whitespace (a ++ b)
  = (Str.has_whitespace a || Str.has_whitespace b)%bool.
Proof.
  induction a as [ | c a IH]; simpl; [reflexivity | ].
  rewrite IH. apply orb_assoc.
Qed.

Lemma digit_is_not_space (c : ascii) :
  is_digit c = true -> Str.is_space c = false.
Proof.
  unfold is_digit, Str.is_space.
  destruct (N_of_ascii c) as [ | p]; [discriminate | ].
  intros H. apply andb_true_iff in H as [H1 H2].
  apply N.leb_le in H1, H2.
  repeat (apply orb_false_iff; split);
    try apply andb_false_iff;
    try (apply N.eqb_neq; lia);
    try (left; apply N.leb_gt; lia);
    try (right; apply N.leb_gt; lia).
Qed.

Lemma no_whitespace (P : ascii -> bool) (s : string) :
  (forall c, P c = true -> Str.is_space c = false) ->
  forallb P s = true -> Str.has_whitespace s = false.
Proof.
  intros HP. induction s as [ | c s IH]; simpl; [reflexivity | ].
  intros H. apply andb_true_iff in H as [Hc Hs].
  rewrite (HP c Hc), (IH Hs). reflexivity.
Qed.

(** The decimal text of a number is made of digits. *)
Lemma uint_digits (d : Decimal.uint) :
  forallb is_digit (NilEmpty.string_of_uint d) = true.
Proof. induction d; simpl; auto. Qed.

Lemma decimal_digits (n : Z) : forallb is_digit (Fmt.decimal n) = true.
Proof.
  unfold Fmt.decimal, NilZero.string_of_uint.
  destruct (N.to_uint (Z.to_N n)); try apply uint_digits. reflexivity.
Qed.

Lemma pad2_digits (n : Z) : forallb is_digit (pad2 n) = true.
Proof.
  unfold pad2. destruct (n <? 10); simpl; apply decimal_digits.
Qed.

Lemma digits_no_whitespace (s : string) :
  forallb is_digit s = true -> Str.has_whitespace s = false.
Proof. apply no_whitespace, digit_is_not_space. Qed.

(** Replacing the spaces leaves the other whitespace and no space. *)
Lemma replace_space_whitespace (s : string) :
  Str.has_whitespace (Str.replace " " "_" s) = Str.has_other_whitespace s.
Proof.
  induction s as [ | c s IH]; simpl; [reflexivity | ].
  rewrite IH. f_equal.
  unfold Str.is_other_space.
  destruct (Ascii.eqb c " ") eqn:Hc; simpl.
  - rewrite andb_false_r. reflexivity.
  - symmetry. apply andb_true_r.
Qed.

Lemma replace_space_none_left (s : string) :
  Str.mem " " (Str.replace " " "_" s) = false.
Proof.
  induction s as [ | c s IH]; simpl; [reflexivity | ].
  rewrite IH, orb_false_r.
  destruct (Ascii.eqb c " ") eqn:Hc; [reflexivity | exact Hc].
Qed.

Lemma mem_app (c : ascii) (a b : string) :
  Str.mem c (a ++ b) = (Str.mem c a || Str.mem c b)%bool.
Proof.
  induction a as [ | c' a IH]; simpl; [reflexivity | ].
  rewrite IH. apply orb_assoc.
Qed.

Lemma digits_no_slash (s : string) :
  forallb is_digit s = true -> Str.mem "/" s = false.
Proof.
  induction s as [ | c s IH]; simpl; [reflexivity | ].
  intros H. apply andb_true_iff in H as [Hc Hs].
  rewrite (IH Hs), orb_false_r.
  destruct (Ascii.eqb c "/") eqn:Heq; [ | reflexivity].
  apply Ascii.eqb_eq in Heq. subst c. discriminate.
Qed.

(** Replacing the spaces leaves the path separators where they are. *)
Lemma replace_space_keeps_slash (s : string) :
  Str.mem "/" (Str.replace " " "_" s) = Str.mem "/" s.
Proof.
  induction s as [ | c s IH]; simpl; [reflexivity | ].
  rewrite IH. f_equal.
  destruct (Ascii.eqb c " ") eqn:Hc; [ | reflexivity].
  apply Ascii.eqb_eq in Hc. subst c. reflexivity.
Qed.

Lemma stamp_no_slash (t : datetime) : Str.mem "/" (strftime_stamp t) = false.
Proof.
  unfold strftime_stamp.
  repeat rewrite mem_app.
  rewrite (digits_no_slash _ (decimal_digits (year t))).
  repeat rewrite (digits_no_slash _ (pad2_digits _)).
  reflexivity.
Qed.

Lemma stamp_no_whitespace (t : datetime) :
  Str.has_whitespace (strftime_stamp t) = false.
Proof.
  unfold strftime_stamp.
  repeat rewrite has_whitespace_app.
  rewrite (digits_no_whitespace _ (decimal_digits (year t))).
  repeat rewrite (digits_no_whitespace _ (pad2_digits _)).
  reflexivity.
Qed.

End CharsFacts.

(** C4, as the code has it.  The file name is the farmer name with every
    space replaced by an underscore, then the crop name as it was given,
    then the time to the second as YYYYMMDD_HHMMSS, joined by underscores and
    followed by ".pdf".  The farmer-name part has no space left and the time
    stamp has no whitespace; the name as a whole has whitespace exactly when
    the crop name has some or the farmer name has whitespace other than
    spaces, and it has a path separator exactly when one of the two names
    has. *)
Theorem filename_template (t : datetime) (data : FarmData) :
  report_filename t data
    = Str.replace " " "_" (farmer_name data) ++ "_" ++ crop_name data ++ "_"
        ++ (Fmt.decimal (year t) ++ pad2 (month t) ++ pad2 (day t) ++ "_"
              ++ pad2 (hour t) ++ pad2 (minute t) ++ pad2 (second t))
        ++ ".pdf"
  /\ Str.mem " " (Str.replace " " "_" (farmer_name data)) = false
  /\ Str.has_whitespace (strftime_stamp t) = false
  /\ Str.has_whitespace (report_filename t data)
     = (Str.has_other_whitespace (farmer_name data)
        || Str.has_whitespace (crop_name data))%bool
  /\ Str.mem "/" (report_filename t data)
     = (Str.mem "/" (farmer_name data) || Str.mem "/" (crop_name data))%bool.
Proof.
  split; [reflexivity | ].
  split; [apply CharsFacts.replace_space_none_left | ].
  split; [apply CharsFacts.stamp_no_whitespace | ].
  unfold report_filename. split.
  - repeat rewrite CharsFacts.has_whitespace_app.
    rewrite CharsFacts.replace_space_whitespace, CharsFacts.stamp_no_whitespace.
    simpl. repeat rewrite orb_false_r. reflexivity.
  - repeat rewrite CharsFacts.mem_app.
    rewrite CharsFacts.replace_space_keeps_slash, CharsFacts.stamp_no_slash.
    simpl. repeat rewrite orb_false_r. reflexivity.
Qed.

(** C4 as stated fails: the crop name is not touched, so a crop name of two
    words gives a file name with a space in it. *)
Lemma filename_keeps_crop_whitespace :
  report_filename Sample.clock Sample.basmati
    = "Ravi_Kumar_Basmati Rice_20240320_090507.pdf"
  /\ Str.has_whitespace (report_filename Sample.clock Sample.basmati) = true.
Proof. split; reflexivity. Qed.

(** ** Reading a composed document *)

(** The tables of a composed document, heading by heading. *)
Lemma tables_of_document (lib : Library) (data : FarmData) (els : list flowable) :
  report_elements lib data = Ok els ->
  table_under "Expense Breakdown" els
    = match expenses data with
      | [] => None
      | _ :: _ => Some (e_data (expenses data))
      end
  /\ table_under "Income Breakdown" els
    = match incomes data with
      | [] => None
      | _ :: _ => Some (i_data (incomes data))
      end
  /\ count_tables els
    = (1 + (match expenses data with [] => 0 | _ :: _ => 1 end)
         + (match incomes data with [] => 0 | _ :: _ => 1 end))%nat
  /\ exists m, report_metrics data = Ok m /\
       In (Table (summary_data m) [250; 150] summary_style) els.
Proof.
  intros H.
  destruct (report_elements_value lib data) as [m [Hm Hels]].
  rewrite Hels in H.
  destruct (generate_charts lib _ _) as [chart_buf | e]; [ | discriminate].
  injection H as <-.
  repeat split.
  4: { exists m. split; [exact Hm | ].
       apply in_or_app. right. unfold body. simpl. tauto. }
  all: unfold logo_part, body, expense_part, income_part;
    destruct (load_image lib logo_path), (expenses data), (incomes data);
    reflexivity.
Qed.

(** C6. Right after the heading "Expense Breakdown" the document has no
    table when the record has no expenses, and otherwise the table of the
    header row Category, Date, Amount followed by one row per expense with
    its category, its date and its amount; the same holds for the incomes
    under "Income Breakdown".  Apart from the summary table the document has
    no other table. *)
Theorem breakdown_tables (lib : Library) (data : FarmData) (els : list flowable) :
  report_elements lib data = Ok els ->
  table_under "Expense Breakdown" els
    = match expenses data with
      | [] => None
      | _ :: _ =>
          Some (["Category"; "Date"; "Amount"]
                  :: map (fun e => [ExpenseItem.category e; ExpenseItem.date e;
                                    Fmt.repr_float (ExpenseItem.amount e)])
                         (expenses data))
      end
  /\ table_under "Income Breakdown" els
    = match incomes data with
      | [] => None
      | _ :: _ =>
          Some (["Category"; "Date"; "Amount"]
                  :: map (fun i => [IncomeItem.category i; IncomeItem.date i;
                                    Fmt.repr_float (IncomeItem.amount i)])
                         (incomes data))
      end
  /\ count_tables els
    = (1 + (match expenses data with [] => 0 | _ :: _ => 1 end)
         + (match incomes data with [] => 0 | _ :: _ => 1 end))%nat
  /\ (forall rows, table_under "Expense Breakdown" els = Some rows ->
        List.length rows = S (List.length (expenses data)))
  /\ (forall rows, table_under "Income Breakdown" els = Some rows ->
        List.length rows = S (List.length (incomes data))).
Proof.
  intros H.
  destruct (tables_of_document lib data els H) as [He [Hi [Hn _]]].
  split; [exact He | split; [exact Hi | split; [exact Hn | ]]].
  rewrite He, Hi.
  split; intros rows Hrows.
  - destruct (expenses data); [discriminate | ].
    injection Hrows as <-. unfold e_data. cbn [List.length].
    rewrite length_map. reflexivity.
  - destruct (incomes data); [discriminate | ].
    injection Hrows as <-. unfold i_data. cbn [List.length].
    rewrite length_map. reflexivity.
Qed.

Lemma breakdown_tables_witness :
  exists els, report_elements Sample.library Sample.ravi = Ok els /\
    table_under "Expense Breakdown" els
      = Some [["Category"; "Date"; "Amount"];
              ["Seeds"; "2023-11-02"; "2000.0"]]
    /\ table_under "Income Breakdown" els
      = Some [["Category"; "Date"; "Amount"];
              ["Sale"; "2024-03-20"; "50000.0"]]
    /\ count_tables els = 3%nat.
Proof.
  eexists. split; [reflexivity | ].
  pose proof (breakdown_tables Sample.library Sample.ravi _ eq_refl)
    as [He [Hi [Hn _]]].
  split; [exact He | split; [exact Hi | exact Hn]].
Defined.

(** ** Plain numbers and currency *)

Module Plain.

Import Chars CharsFacts.

Lemma digit_plain (s : string) :
  forallb is_digit s = true -> forallb is_plain s = true.
Proof.
  apply forallb_impl. intros c Hc. unfold is_plain. rewrite Hc. reflexivity.
Qed.

Lemma zeros_digits (n : nat) : forallb is_digit (Fmt.zeros n) = true.
Proof. induction n as [ | n IH]; simpl; auto. Qed.

Lemma strip_zeros_forallb (P : ascii -> bool) (l : list ascii) :
  List.forallb P l = true -> List.forallb P (Fmt.strip_zeros l) = true.
Proof.
  induction l as [ | c l IH]; simpl; [reflexivity | ].
  intros H. pose proof H as H'. apply andb_true_iff in H' as [_ Hl].
  destruct c as [[ | ] [ | ] [ | ] [ | ] [ | ] [ | ] [ | ] [ | ]];
    try exact H; apply IH, Hl.
Qed.

Lemma sign_plain (s : bool) : forallb is_plain (Fmt.sign s) = true.
Proof. destruct s; reflexivity. Qed.

Lemma exponent_plain (x : Z) : forallb is_plain (Fmt.exponent x) = true.
Proof.
  unfold Fmt.exponent.
  repeat rewrite forallb_app.
  rewrite (digit_plain _ (decimal_digits _)).
  destruct (x <? 0), (Z.abs x <? 10); reflexivity.
Qed.

Lemma repr_finite_plain (m : positive) (e : Z) :
  forallb is_plain (Fmt.repr_finite m e) = true.
Proof.
  unfold Fmt.repr_finite.
  destruct (Fmt.shortest m e) as [c k].
  set (all := Fmt.decimal c).
  set (ds := string_of_list_ascii
               (rev (Fmt.strip_zeros (rev (list_ascii_of_string all))))).
  assert (Hds : forallb is_plain ds = true).
  { apply digit_plain. unfold ds.
    rewrite forallb_of_list, list_forallb_rev.
    apply strip_zeros_forallb.
    rewrite list_forallb_rev, forallb_to_list.
    apply decimal_digits. }
  assert (Hsub : forall n l, forallb is_plain (substring n l ds) = true)
    by (apply forallb_substring, Hds).
  destruct ((k + Z.of_nat (String.length all) <=? -4)
            || (16 <? k + Z.of_nat (String.length all)))%bool.
  - repeat rewrite forallb_app.
    unfold Fmt.take. rewrite Hsub, exponent_plain.
    destruct (Nat.leb (String.length ds) 1); [reflexivity | ].
    rewrite forallb_app. unfold Fmt.drop. rewrite Hsub. reflexivity.
  - destruct (k + Z.of_nat (String.length all) <=? 0).
    + repeat rewrite forallb_app.
      rewrite (digit_plain _ (zeros_digits _)), Hds. reflexivity.
    + destruct (Z.of_nat (String.length ds)
                <=? k + Z.of_nat (String.length all)).
      * repeat rewrite forallb_app.
        rewrite (digit_plain _ (zeros_digits _)), Hds. reflexivity.
      * repeat rewrite forallb_app.
        unfold Fmt.take, Fmt.drop. repeat rewrite Hsub. reflexivity.
Qed.

(** [repr] of a float is made of digits, a point, signs and the letters of
    [e], [inf] and [nan]. *)
Lemma repr_float_plain (x : float) :
  forallb is_plain (Fmt.repr_float x) = true.
Proof.
  destruct x as [s | s | | s m e]; simpl;
    try (rewrite forallb_app, sign_plain); try reflexivity.
  apply repr_finite_plain.
Qed.

Lemma plain_mem (c : ascii) (s : string) :
  is_plain c = false -> forallb is_plain s = true -> Str.mem c s = false.
Proof.
  intros Hc. induction s as [ | c' s IH]; simpl; [reflexivity | ].
  intros H. apply andb_true_iff in H as [Hc' Hs].
  rewrite (IH Hs), orb_false_r.
  destruct (Ascii.eqb c' c) eqn:Heq; [ | reflexivity].
  apply Ascii.eqb_eq in Heq. congruence.
Qed.

Lemma plain_no_label (s : string) :
  forallb is_plain s = true -> String.prefix "INR " s = false.
Proof.
  destruct s as [ | c s]; [reflexivity | ].
  intros H. cbn [forallb] in H. apply andb_true_iff in H as [Hc _].
  cbn [String.prefix].
  destruct (ascii_dec "I" c) as [<- | ]; [discriminate | reflexivity].
Qed.

End Plain.

(** ** The shape of an amount of money *)

Module MoneyFacts.

Import Money.

Import Chars CharsFacts.

Lemma group3_grouped (n : nat) :
  forall l : list ascii,
    (List.length l <= n)%nat -> l <> [] ->
    List.forallb is_digit l = true ->
    grouped (Fmt.group3 l).
Proof.
  induction n as [ | n IH]; intros l Hlen Hne Hdigits.
  - destruct l; [congruence | simpl in Hlen; lia].
  - destruct l as [ | a [ | b [ | c [ | d rest]]]]; [congruence | | | | ].
    + apply grouped_top; [simpl; lia | exact Hdigits].
    + apply grouped_top; [simpl; lia | exact Hdigits].
    + apply grouped_top; [simpl; lia | exact Hdigits].
    + change (Fmt.group3 (a :: b :: c :: d :: rest))
        with (a :: b :: c :: ","%char :: Fmt.group3 (d :: rest)).
      cbn [List.forallb] in Hdigits.
      apply andb_true_iff in Hdigits as [Ha Hdigits].
      apply andb_true_iff in Hdigits as [Hb Hdigits].
      apply andb_true_iff in Hdigits as [Hc Hdigits].
      apply grouped_more; try assumption.
      apply IH; [simpl in *; lia | discriminate | exact Hdigits].
Qed.

Lemma decimal_not_empty (n : Z) : Fmt.decimal n <> "".
Proof.
  unfold Fmt.decimal, NilZero.string_of_uint.
  destruct (N.to_uint (Z.to_N n)); discriminate.
Qed.

Lemma thousands_grouped (whole : string) :
  whole <> "" -> forallb is_digit whole = true ->
  grouped (rev (list_ascii_of_string (Fmt.thousands whole))).
Proof.
  intros Hne Hdigits. unfold Fmt.thousands.
  rewrite list_ascii_of_string_of_list_ascii, rev_involutive.
  apply (group3_grouped (List.length (rev (list_ascii_of_string whole)))).
  - lia.
  - destruct whole as [ | c whole]; [congruence | ].
    simpl. intros H. apply app_eq_nil in H as [_ H]. discriminate.
  - rewrite list_forallb_rev, forallb_to_list. exact Hdigits.
Qed.

(** A finite amount formatted as [f"INR {x:,.2f}"] is the text of an
    amount of money. *)
Lemma format_money (x : float) :
  is_finite x = true -> money ("INR " ++ Fmt.format_float_2f x).
Proof.
  destruct x as [s | s | | s m e]; try discriminate; intros _.
  - exists s, "0", "0"%char, "0"%char.
    split; [reflexivity | ].
    split; [apply grouped_top; [simpl; lia | reflexivity] | ].
    split; reflexivity.
  - exists s, (Fmt.thousands (Fmt.decimal (Fmt.hundredths m e / 100))),
      (Fmt.digit (Fmt.hundredths m e mod 100 / 10)),
      (Fmt.digit (Fmt.hundredths m e mod 10)).
    split; [reflexivity | ].
    split; [apply thousands_grouped;
            [apply decimal_not_empty | apply decimal_digits] | ].
    split.
    + destruct (Fmt.hundredths m e mod 100 / 10) as [ | p | p];
        try reflexivity.
      do 4 (destruct p as [p | p | ]; try reflexivity).
    + destruct (Fmt.hundredths m e mod 10) as [ | p | p]; try reflexivity.
      do 4 (destruct p as [p | p | ]; try reflexivity).
Qed.

End MoneyFacts.

(** C5, as the code has it.  In the summary table each of the four figures
    is the label "INR " followed by the figure formatted with [',.2f']: for
    a finite figure, a sign, the whole part in groups of three digits
    separated by commas, a point and two digits; for a figure that is an
    infinity or not a number, [inf], [-inf] or [nan].  The Amount cell of
    every row of the expense and income tables is the bare [repr] of the
    amount: it does not start with the label and holds no comma. *)
Theorem summary_currency_rows_plain
    (lib : Library) (data : FarmData) (els : list flowable) :
  report_elements lib data = Ok els ->
  (exists m, report_metrics data = Ok m /\
     In (Table [ ["Financial Metrics"; "Value"];
                 ["Total Income"; "INR " ++ Fmt.format_2f (total_inc m)];
                 ["Total Expense"; "INR " ++ Fmt.format_2f (total_exp m)];
                 ["Net Profit/Loss"; "INR " ++ Fmt.format_2f (profit m)];
                 ["Cost of Cultivation / Acre";
                  "INR " ++ Fmt.format_2f (cost_per_acre m)] ]
               [250; 150] summary_style) els /\
     forall v, In v [total_inc m; total_exp m; profit m; cost_per_acre m] ->
       (Money.is_finite (to_float v) = true ->
        Money.money ("INR " ++ Fmt.format_2f v))
       /\
       (Money.is_finite (to_float v) = false ->
        In ("INR " ++ Fmt.format_2f v) ["INR inf"; "INR -inf"; "INR nan"]))
  /\ (forall e, In e (expenses data) ->
        exists rows, table_under "Expense Breakdown" els = Some rows /\
          In [ExpenseItem.category e; ExpenseItem.date e;
              Fmt.repr_float (ExpenseItem.amount e)] rows /\
          String.prefix "INR " (Fmt.repr_float (ExpenseItem.amount e)) = false /\
          Str.mem "," (Fmt.repr_float (ExpenseItem.amount e)) = false)
  /\ (forall i, In i (incomes data) ->
        exists rows, table_under "Income Breakdown" els = Some rows /\
          In [IncomeItem.category i; IncomeItem.date i;
              Fmt.repr_float (IncomeItem.amount i)] rows /\
          String.prefix "INR " (Fmt.repr_float (IncomeItem.amount i)) = false /\
          Str.mem "," (Fmt.repr_float (IncomeItem.amount i)) = false).
Proof.
  intros H.
  destruct (tables_of_document lib data els H) as [He [Hi [_ [m [Hm Hsum]]]]].
  split; [ | split].
  - exists m. split; [exact Hm | split; [exact Hsum | ]].
    intros v _. split.
    + intros Hfinite. apply MoneyFacts.format_money, Hfinite.
    + unfold Fmt.format_2f.
      destruct (to_float v) as [s | [ | ] | | s m' e]; try discriminate;
        intros _; simpl; tauto.
  - intros e Hin. rewrite He.
    destruct (expenses data) as [ | e0 es] eqn:Hes; [contradiction | ].
    exists (e_data (e0 :: es)).
    split; [reflexivity | split].
    + unfold e_data. right.
      apply (in_map (fun e => [ExpenseItem.category e; ExpenseItem.date e;
                               Fmt.repr_float (ExpenseItem.amount e)])).
      exact Hin.
    + split.
      * apply Plain.plain_no_label, Plain.repr_float_plain.
      * apply Plain.plain_mem; [reflexivity | apply Plain.repr_float_plain].
  - intros i Hin. rewrite Hi.
    destruct (incomes data) as [ | i0 ins] eqn:Hins; [contradiction | ].
    exists (i_data (i0 :: ins)).
    split; [reflexivity | split].
    + unfold i_data. right.
      apply (in_map (fun i => [IncomeItem.category i; IncomeItem.date i;
                               Fmt.repr_float (IncomeItem.amount i)])).
      exact Hin.
    + split.
      * apply Plain.plain_no_label, Plain.repr_float_plain.
      * apply Plain.plain_mem; [reflexivity | apply Plain.repr_float_plain].
Qed.

Lemma summary_currency_rows_plain_witness :
  exists els, report_elements Sample.library Sample.ravi = Ok els /\
    (exists m, report_metrics Sample.ravi = Ok m /\
       In (Table [ ["Financial Metrics"; "Value"];
                   ["Total Income"; "INR 50,000.00"];
                   ["Total Expense"; "INR 2,000.00"];
                   ["Net Profit/Loss"; "INR 48,000.00"];
                   ["Cost of Cultivation / Acre"; "INR 1,000.00"] ]
                 [250; 150] summary_style) els /\
       Money.money "INR 48,000.00")
    /\ (exists rows, table_under "Expense Breakdown" els = Some rows /\
          In ["Seeds"; "2023-11-02"; "2000.0"] rows)
    /\ (exists rows, table_under "Income Breakdown" els = Some rows /\
          In ["Sale"; "2024-03-20"; "50000.0"] rows).
Proof.
  eexists. split; [reflexivity | ].
  pose proof (summary_currency_rows_plain Sample.library Sample.ravi _ eq_refl)
    as [[m [Hm [Hsum Hmoney]]] [He Hi]].
  split; [ | split].
  - exists m. split; [exact Hm | ].
    assert (Hv : Ok m = Ok {| total_inc := PyFloat (float_of_Z 50000);
                              total_exp := PyFloat (float_of_Z 2000);
                              profit := PyFloat (float_of_Z 48000);
                              cost_per_acre := PyFloat (float_of_Z 1000) |})
      by (rewrite <- Hm; reflexivity).
    injection Hv as ->. split; [exact Hsum | ].
    apply (proj1 (Hmoney (PyFloat (float_of_Z 48000))
                    (or_intror (or_intror (or_introl eq_refl))))).
    reflexivity.
  - destruct (He Sample.seeds (or_introl eq_refl)) as [rows [Hrows [Hin _]]].
    exists rows. split; [exact Hrows | exact Hin].
  - destruct (Hi Sample.sale (or_introl eq_refl)) as [rows [Hrows [Hin _]]].
    exists rows. split; [exact Hrows | exact Hin].
Defined.

(** C5 as stated fails: an expense of 1e38 on 1e-300 acres composes, the
    cost per acre overflows to an infinity, and its cell of the summary
    table reads "INR inf": no digits, no point, no decimals. *)
Lemma summary_cell_without_decimals :
  exists m els w',
    report_metrics Sample.vast = Ok m
    /\ report_elements Sample.library Sample.vast = Ok els
    /\ create_and_save_pdf Sample.library Sample.vast Sample.world
       = Ok ("Ravi_Kumar_Wheat_20240320_090507.pdf", w')
    /\ In (Table (summary_data m) [250; 150] summary_style) els
    /\ nth 4 (summary_data m) [] = ["Cost of Cultivation / Acre"; "INR inf"]
    /\ Str.mem "." "INR inf" = false
    /\ ~ Money.money "INR inf".
Proof.
  eexists. eexists. eexists.
  split; [vm_compute; reflexivity | ].
  split; [vm_compute; reflexivity | ].
  split; [vm_compute; reflexivity | ].
  split; [vm_compute; tauto | ].
  split; [vm_compute; reflexivity | ].
  split; [reflexivity | ].
  intros [s [whole [d1 [d2 [Heq _]]]]].
  apply (f_equal (Str.mem ".")) in Heq.
  change ("INR " ++ Fmt.sign s ++ whole ++ "." ++ String d1 (String d2 ""))
    with ("INR " ++ (Fmt.sign s ++ (whole ++ ("." ++ String d1 (String d2 "")))))
    in Heq.
  rewrite !CharsFacts.mem_app in Heq.
  cbn [Str.mem Ascii.eqb Bool.eqb] in Heq.
  rewrite !orb_true_r in Heq. discriminate.
Qed.

(** ** The record store *)

Module ListingFacts.

Import Listing.

Import Store.

Lemma largest_id_bound (l : list row) (r : row) :
  In r l -> id r <= largest_id l.
Proof.
  induction l as [ | r' l IH]; simpl; [contradiction | ].
  intros [-> | Hin]; [lia | ]. specialize (IH Hin). lia.
Qed.

(** What a successful insert does: the new row has a fresh id, larger than
    every id of the table, and is appended. *)
Lemma insert_ok (db db' : database) (new_id : Z)
    (farmer crop file json created : string) :
  insert db farmer crop file json created = Ok (new_id, db') ->
  rows db' = (rows db ++ [{| id := new_id; farmer_name := farmer;
                             crop_name := crop; filename := file;
                             json_data := json; created_at := created |}])%list
  /\ (forall r, In r (rows db) -> id r < new_id)
  /\ sequence db' = new_id /\ sequence db < new_id.
Proof.
  unfold insert.
  destruct (max_rowid <=? _); [discriminate | ].
  intros H. injection H as <- <-. simpl.
  split; [reflexivity | split; [ | split; [reflexivity | lia]]].
  intros r Hin. apply largest_id_bound in Hin. lia.
Qed.

(** Later tables keep the rows, and hand out larger ids. *)
Lemma later_keeps (db db' : database) :
  later db db' ->
  (forall r, In r (rows db) -> In r (rows db'))
  /\ sequence db <= sequence db'.
Proof.
  induction 1 as [ | db1 db2 new_id f c n j t _ [IHin IHseq] Hins].
  - split; [auto | lia].
  - apply insert_ok in Hins as [Hrows [_ [Hseq Hlt]]].
    split; [ | lia].
    intros r Hin. rewrite Hrows. apply in_or_app. left. auto.
Qed.

Lemma insert_desc_perm (r : row) (l : list row) :
  Permutation (r :: l) (insert_desc r l).
Proof.
  induction l as [ | r' l IH]; simpl; [reflexivity | ].
  destruct (id r' <=? id r); [reflexivity | ].
  rewrite perm_swap. apply perm_skip, IH.
Qed.

Lemma order_perm (l : list row) : Permutation l (order_by_id_desc l).
Proof.
  induction l as [ | r l IH]; simpl; [reflexivity | ].
  rewrite <- insert_desc_perm. apply perm_skip, IH.
Qed.

Lemma insert_desc_sorted (r : row) (l : list row) :
  Sorted descending l -> Sorted descending (insert_desc r l).
Proof.
  induction 1 as [ | r' l Hsorted IH Hhd]; simpl.
  - repeat constructor.
  - destruct (id r' <=? id r) eqn:Hcmp.
    + apply Z.leb_le in Hcmp.
      constructor; [constructor; assumption | constructor; exact Hcmp].
    + apply Z.leb_gt in Hcmp.
      constructor; [exact IH | ].
      destruct Hhd as [ | r'' l Hr'']; simpl.
      * constructor. unfold descending. lia.
      * destruct (id r'' <=? id r); constructor;
          [unfold descending; lia | exact Hr''].
Qed.

Lemma order_sorted (l : list row) :
  StronglySorted descending (order_by_id_desc l).
Proof.
  apply Sorted_StronglySorted.
  - intros x y z Hxy Hyz. unfold descending in *. lia.
  - induction l as [ | r l IH]; simpl; [constructor | ].
    apply insert_desc_sorted, IH.
Qed.

Lemma sorted_suffix (l1 l2 : list row) :
  StronglySorted descending (l1 ++ l2) -> StronglySorted descending l2.
Proof.
  induction l1 as [ | r l1 IH]; simpl; [auto | ].
  intros H. apply StronglySorted_inv in H as [H _]. auto.
Qed.

(** In a list sorted from the largest id down, a row with a larger id comes
    before a row with a smaller one. *)
Lemma sorted_before (l : list row) (x y : row) :
  StronglySorted descending l ->
  In x l -> In y l -> id y < id x -> before x y l.
Proof.
  intros Hsorted Hx Hy Hlt.
  apply in_split in Hx as [l1 [l2 ->]].
  apply in_app_or in Hy as [Hy | [-> | Hy]].
  - exfalso.
    apply in_split in Hy as [l3 [l4 ->]].
    rewrite <- app_assoc in Hsorted. simpl in Hsorted.
    apply sorted_suffix in Hsorted.
    apply StronglySorted_inv in Hsorted as [_ Hall].
    rewrite Forall_forall in Hall.
    assert (descending y x) by (apply Hall, in_or_app; right; left; reflexivity).
    unfold descending in *. lia.
  - lia.
  - apply in_split in Hy as [l3 [l4 ->]].
    exists l1, l3, l4. reflexivity.
Qed.

End ListingFacts.

(** C7. GET /api/reports returns the rows of the table, each once, from the
    largest id down.  When a report A is inserted and later a report B, B
    gets the larger id, and in every listing from then on, whatever was
    inserted in between or since, B's row comes before A's row. *)
Theorem listing_newest_first
    (w : World) (db db1 db1' db2 : Store.database) (id_a id_b : Z)
    (farmer_a crop_a file_a json_a created_a : string)
    (farmer_b crop_b file_b json_b created_b : string) :
  Store.insert db farmer_a crop_a file_a json_a created_a = Ok (id_a, db1) ->
  Listing.later db1 db1' ->
  Store.insert db1' farmer_b crop_b file_b json_b created_b = Ok (id_b, db2) ->
  Listing.later db2 (reports w) ->
  let row_a := {| Store.id := id_a; Store.farmer_name := farmer_a;
                  Store.crop_name := crop_a; Store.filename := file_a;
                  Store.json_data := json_a; Store.created_at := created_a |} in
  let row_b := {| Store.id := id_b; Store.farmer_name := farmer_b;
                  Store.crop_name := crop_b; Store.filename := file_b;
                  Store.json_data := json_b; Store.created_at := created_b |} in
  Permutation (Store.rows (reports w)) (get_reports w)
  /\ StronglySorted Listing.descending (get_reports w)
  /\ id_a < id_b
  /\ Listing.before row_b row_a (get_reports w).
Proof.
  intros Ha Hmid Hb Hlate row_a row_b.
  unfold get_reports, Store.select_all_desc.
  split; [apply ListingFacts.order_perm | ].
  split; [apply ListingFacts.order_sorted | ].
  apply ListingFacts.insert_ok in Ha as [Hrows_a _].
  apply ListingFacts.insert_ok in Hb as [Hrows_b [Hfresh _]].
  apply ListingFacts.later_keeps in Hmid as [Hkeep_mid _].
  apply ListingFacts.later_keeps in Hlate as [Hkeep_late _].
  fold row_a in Hrows_a. fold row_b in Hrows_b.
  assert (Hin_a1 : In row_a (Store.rows db1')).
  { apply Hkeep_mid. rewrite Hrows_a. apply in_or_app. right. left. reflexivity. }
  assert (Hlt : id_a < id_b) by exact (Hfresh row_a Hin_a1).
  split; [exact Hlt | ].
  apply ListingFacts.sorted_before.
  - apply ListingFacts.order_sorted.
  - apply (Permutation_in _ (ListingFacts.order_perm _)), Hkeep_late.
    rewrite Hrows_b. apply in_or_app. right. left. reflexivity.
  - apply (Permutation_in _ (ListingFacts.order_perm _)), Hkeep_late.
    rewrite Hrows_b. apply in_or_app. left. exact Hin_a1.
  - exact Hlt.
Qed.

Lemma listing_newest_first_witness :
  let row_a := {| Store.id := 1; Store.farmer_name := "Ravi Kumar";
                  Store.crop_name := "Wheat";
                  Store.filename := "Ravi_Kumar_Wheat_20240320_090507.pdf";
                  Store.json_data := "{}";
                  Store.created_at := "2024-03-20 09:05" |} in
  let row_b := {| Store.id := 2; Store.farmer_name := "Asha Patil";
                  Store.crop_name := "Rice";
                  Store.filename := "Asha_Patil_Rice_20240321_101500.pdf";
                  Store.json_data := "{}";
                  Store.created_at := "2024-03-21 10:15" |} in
  get_reports {| files := files Sample.world;
                 reports := {| Store.rows := [row_a; row_b];
                               Store.sequence := 2 |} |}
    = [row_b; row_a]
  /\ Listing.before row_b row_a
       (get_reports {| files := files Sample.world;
                       reports := {| Store.rows := [row_a; row_b];
                                     Store.sequence := 2 |} |}).
Proof.
  intros row_a row_b.
  split; [reflexivity | ].
  refine (proj2 (proj2 (proj2
    (listing_newest_first
       {| files := files Sample.world;
          reports := {| Store.rows := [row_a; row_b];
                        Store.sequence := 2 |} |}
       Store.empty
       {| Store.rows := [row_a]; Store.sequence := 1 |}
       {| Store.rows := [row_a]; Store.sequence := 1 |}
       {| Store.rows := [row_a; row_b]; Store.sequence := 2 |}
       1 2 "Ravi Kumar" "Wheat" "Ravi_Kumar_Wheat_20240320_090507.pdf" "{}"
       "2024-03-20 09:05"
       "Asha Patil" "Rice" "Asha_Patil_Rice_20240321_101500.pdf" "{}"
       "2024-03-21 10:15" _ _ _ _)))).
  - reflexivity.
  - apply Listing.later_now.
  - reflexivity.
  - apply Listing.later_now.
Defined.

(** C8, as the code has it.  GET /reports/{filename} answers with status
    404 and the JSON body {"message": "File not found"} exactly when
    nothing exists at the path of the name under "reports".  When a file
    is at that path, its bytes go out as application/pdf under the name
    asked for.  For a name that does not start with a slash the path is
    "reports/" followed by the name. *)
Theorem download_report_answer (w : World) (filename : string) :
  (files w (Str.os_path_join "reports" filename) = None ->
   download_report w filename
     = JSONBody 404 [("message", "File not found")]
   /\ deliver w (download_report w filename)
      = Ok (SentJSON 404 [("message", "File not found")]))
  /\
  (forall content,
     files w (Str.os_path_join "reports" filename) = Some (File content) ->
     download_report w filename
       = FileResponse (Str.os_path_join "reports" filename)
           "application/pdf" filename
     /\ deliver w (download_report w filename)
        = Ok (SentFile "application/pdf" filename content))
  /\
  (download_report w filename = JSONBody 404 [("message", "File not found")]
   <-> files w (Str.os_path_join "reports" filename) = None)
  /\
  (Str.starts_with_slash filename = false ->
   Str.os_path_join "reports" filename = "reports/" ++ filename).
Proof.
  unfold download_report, path_exists.
  split; [ | split; [ | split]].
  - intros ->. split; reflexivity.
  - intros content H. rewrite H. cbn [deliver]. rewrite H.
    split; reflexivity.
  - destruct (files w (Str.os_path_join "reports" filename)) as [e | ].
    + split; discriminate.
    + split; reflexivity.
  - intros H. unfold Str.os_path_join. rewrite H. reflexivity.
Qed.

Lemma download_report_answer_witness :
  (download_report Sample.world "missing.pdf"
     = JSONBody 404 [("message", "File not found")]
   /\ deliver Sample.world (download_report Sample.world "missing.pdf")
      = Ok (SentJSON 404 [("message", "File not found")]))
  /\ (download_report
        (write_file Sample.world
           "reports/Ravi_Kumar_Wheat_20240320_090507.pdf" Sample.pdf)
        "Ravi_Kumar_Wheat_20240320_090507.pdf"
      = FileResponse "reports/Ravi_Kumar_Wheat_20240320_090507.pdf"
          "application/pdf" "Ravi_Kumar_Wheat_20240320_090507.pdf"
      /\ deliver
           (write_file Sample.world
              "reports/Ravi_Kumar_Wheat_20240320_090507.pdf" Sample.pdf)
           (download_report
              (write_file Sample.world
                 "reports/Ravi_Kumar_Wheat_20240320_090507.pdf" Sample.pdf)
              "Ravi_Kumar_Wheat_20240320_090507.pdf")
         = Ok (SentFile "application/pdf"
                 "Ravi_Kumar_Wheat_20240320_090507.pdf" Sample.pdf))
  /\ Str.os_path_join "reports" "missing.pdf" = "reports/missing.pdf".
Proof.
  split; [ | split].
  - apply (proj1 (download_report_answer Sample.world "missing.pdf")).
    reflexivity.
  - apply (proj1 (proj2 (download_report_answer
             (write_file Sample.world
                "reports/Ravi_Kumar_Wheat_20240320_090507.pdf" Sample.pdf)
             "Ravi_Kumar_Wheat_20240320_090507.pdf"))).
    reflexivity.
  - apply (proj2 (proj2 (proj2
             (download_report_answer Sample.world "missing.pdf")))).
    reflexivity.
Defined.

(** C8 as stated fails: ".." names no file of the archive, and the route
    takes it as a file name; the parent directory exists at "reports/..",
    so the answer is not the 404 but a file response for a directory, which
    fails when it is sent. *)
Lemma download_of_directory_name :
  (forall content,
     files Sample.world_with_dots (Str.os_path_join "reports" "..")
     <> Some (File content))
  /\ route_reports Sample.world_with_dots ".."
     = Some (FileResponse "reports/.." "application/pdf" "..")
  /\ download_report Sample.world_with_dots ".."
     <> JSONBody 404 [("message", "File not found")]
  /\ deliver Sample.world_with_dots
       (download_report Sample.world_with_dots "..")
     = Raise (LibraryError
                "RuntimeError: File at path reports/.. is not a file.").
Proof.
  split; [intros content; discriminate | ].
  split; [reflexivity | ].
  split; [discriminate | reflexivity].
Qed.

(** C10, as the code has it.  Validation of an expense or income item
    reads the amount as a float and never looks at its sign.  An item
    that validates is an object whose amount is a value the validator can
    read as a float, and the item carries that float.  A JSON float of
    either sign is taken as it is; a JSON int of either sign is converted,
    and refused only when it is too large for a float. *)
Theorem amount_sign_unchecked :
  (forall j item, Validate.expense_item j = Some item ->
     exists fields v, j = JObj fields /\
       Validate.get "amount" fields = Some v /\
       Validate.float_value v = Some (ExpenseItem.amount item))
  /\
  (forall j item, Validate.income_item j = Some item ->
     exists fields v, j = JObj fields /\
       Validate.get "amount" fields = Some v /\
       Validate.float_value v = Some (IncomeItem.amount item))
  /\
  (forall (c d : string) (x : float),
     Validate.expense_item
       (JObj [("category", JStr c); ("amount", JNum (PyFloat x));
              ("date", JStr d)])
     = Some {| ExpenseItem.category := c; ExpenseItem.amount := x;
               ExpenseItem.date := d; ExpenseItem.description := Some "" |}
     /\
     Validate.income_item
       (JObj [("category", JStr c); ("amount", JNum (PyFloat x));
              ("date", JStr d)])
     = Some {| IncomeItem.category := c; IncomeItem.amount := x;
               IncomeItem.date := d; IncomeItem.description := Some "" |})
  /\
  (forall (c d : string) (n : Z),
     Validate.expense_item
       (JObj [("category", JStr c); ("amount", JNum (PyInt n));
              ("date", JStr d)])
     = match binary_normalize 53 1024 n 0 false with
       | S754_infinity _ => None
       | x => Some {| ExpenseItem.category := c; ExpenseItem.amount := x;
                      ExpenseItem.date := d;
                      ExpenseItem.description := Some "" |}
       end
     /\
     Validate.income_item
       (JObj [("category", JStr c); ("amount", JNum (PyInt n));
              ("date", JStr d)])
     = match binary_normalize 53 1024 n 0 false with
       | S754_infinity _ => None
       | x => Some {| IncomeItem.category := c; IncomeItem.amount := x;
                      IncomeItem.date := d;
                      IncomeItem.description := Some "" |}
       end).
Proof.
  split; [ | split; [ | split]].
  - intros [ | | | | | fields] item H; try discriminate.
    unfold Validate.expense_item, Validate.float_field in H.
    destruct (Validate.str_field "category" fields); [ | discriminate].
    destruct (Validate.get "amount" fields) as [v | ] eqn:Hget;
      [ | discriminate].
    exists fields, v. split; [reflexivity | split; [exact Hget | ]].
    destruct (Validate.float_value v) as [x | ]; [ | discriminate].
    destruct (Validate.str_field "date" fields); [ | discriminate].
    destruct (Validate.optional_str_field "description" fields);
      [ | discriminate].
    injection H as <-. reflexivity.
  - intros [ | | | | | fields] item H; try discriminate.
    unfold Validate.income_item, Validate.float_field in H.
    destruct (Validate.str_field "category" fields); [ | discriminate].
    destruct (Validate.get "amount" fields) as [v | ] eqn:Hget;
      [ | discriminate].
    exists fields, v. split; [reflexivity | split; [exact Hget | ]].
    destruct (Validate.float_value v) as [x | ]; [ | discriminate].
    destruct (Validate.str_field "date" fields); [ | discriminate].
    destruct (Validate.optional_str_field "description" fields);
      [ | discriminate].
    injection H as <-. reflexivity.
  - intros c d x. split; reflexivity.
  - intros c d n.
    unfold Validate.expense_item, Validate.income_item, Validate.float_field.
    cbn [Validate.str_field Validate.optional_str_field Validate.get
         String.eqb Ascii.eqb Bool.eqb Validate.float_value].
    unfold float_of_Z, prec, emax.
    destruct (binary_normalize 53 1024 n 0 false); split; reflexivity.
Qed.

Lemma amount_sign_unchecked_witness :
  (exists fields v,
     JObj [("category", JStr "Seeds"); ("amount", JStr "-12.5");
           ("date", JStr "2023-11-02")] = JObj fields /\
     Validate.get "amount" fields = Some v /\
     Validate.float_value v
     = Some (S754_finite true 7036874417766400 (-49)))
  /\ Validate.float_value (JStr "12.5")
     = Some (S754_finite false 7036874417766400 (-49))
  /\ Validate.float_value (JBool true)
     = Some (S754_finite false 4503599627370496 (-52))
  /\ Validate.float_value (JNum (PyInt (-2000)))
     = Some (S754_finite true 8796093022208000 (-42))
  /\ Validate.float_value (JNum (PyInt (10 ^ 400))) = None
  /\ Validate.float_value (JStr "twelve") = None
  /\ Validate.float_value JNull = None.
Proof.
  split; [ | repeat split; vm_compute; reflexivity].
  apply (proj1 amount_sign_unchecked
           (JObj [("category", JStr "Seeds"); ("amount", JStr "-12.5");
                  ("date", JStr "2023-11-02")])
           {| ExpenseItem.category := "Seeds";
              ExpenseItem.amount := S754_finite true 7036874417766400 (-49);
              ExpenseItem.date := "2023-11-02";
              ExpenseItem.description := Some "" |}).
  vm_compute. reflexivity.
Defined.

(** C10 as stated fails: an expense of -2000 validates, and its amount is
    below zero. *)
Lemma negative_amount_accepted :
  exists item,
    Validate.expense_item
      (JObj [("category", JStr "Seeds"); ("amount", JNum (PyInt (-2000)));
             ("date", JStr "2023-11-02")]) = Some item
    /\ py_lt (PyFloat (ExpenseItem.amount item)) (PyInt 0) = true.
Proof. eexists. split; reflexivity. Qed.

(** ** The service end to end *)

(** The scenario of the specification: the body validates, the report is
    written and recorded, the listing shows its row and the download finds
    the file. *)
Example scenario_generate_list_download :
  Validate.farm_data Sample.ravi_body = Some Sample.ravi
  /\ exists w',
       post_generate Sample.library Sample.clock Sample.ravi_body Sample.world
         = Ok (JSONBody 200
                 [("status", "success");
                  ("filename", "Ravi_Kumar_Wheat_20240320_090507.pdf")], w')
       /\ get_reports w'
          = [{| Store.id := 1; Store.farmer_name := "Ravi Kumar";
                Store.crop_name := "Wheat";
                Store.filename := "Ravi_Kumar_Wheat_20240320_090507.pdf";
                Store.json_data := "{}";
                Store.created_at := "2024-03-20 09:05" |}]
       /\ download_report w' "Ravi_Kumar_Wheat_20240320_090507.pdf"
          = FileResponse "reports/Ravi_Kumar_Wheat_20240320_090507.pdf"
              "application/pdf" "Ravi_Kumar_Wheat_20240320_090507.pdf".
Proof.
  split; [reflexivity | ].
  eexists. split; [reflexivity | split; reflexivity].
Qed.

(** A negative income passes validation and reaches the chart: the request
    ends in matplotlib's error, not in a report. *)
Example scenario_negative_income :
  Validate.farm_data Sample.refund_body <> None
  /\ post_generate Sample.library Sample.clock Sample.refund_body Sample.world
     = Raise (LibraryError
                "ValueError: Wedge sizes 'x' must be non negative values").
Proof. split; [discriminate | reflexivity]. Qed.

(** * Further properties of the service *)

(** ** The table of reports *)

Module StoreFacts.

Import Store Listing ListingFacts.

(** A row with an id above all the others sorts to the front. *)
Lemma insert_desc_front (r x : row) (sorted : list row) :
  id x < id r -> insert_desc x (r :: sorted) = r :: insert_desc x sorted.
Proof.
  intros Hlt. simpl.
  destruct (id r <=? id x) eqn:Hcmp; [ | reflexivity].
  apply Z.leb_le in Hcmp. lia.
Qed.

Lemma order_under_front (r : row) (l sorted : list row) :
  (forall x, In x l -> id x < id r) ->
  fold_right insert_desc (r :: sorted) l
  = r :: fold_right insert_desc sorted l.
Proof.
  induction l as [ | x l IH]; intros Hall; simpl; [reflexivity | ].
  rewrite IH by (intros y Hy; apply Hall; right; exact Hy).
  apply insert_desc_front, Hall. left. reflexivity.
Qed.

(** Listing a table to which a row with a fresh, larger id was appended:
    the new row, then the listing as it was. *)
Lemma order_append_newest (r : row) (l : list row) :
  (forall x, In x l -> id x < id r) ->
  order_by_id_desc (l ++ [r]) = r :: order_by_id_desc l.
Proof.
  intros Hall. unfold order_by_id_desc.
  rewrite fold_right_app. simpl.
  apply order_under_front, Hall.
Qed.



End StoreFacts.



(** ** A request that succeeds *)

(** What a successful POST /api/generate did: the composer wrote the
    document at the path of the report, then the row was inserted. *)
Lemma generate_report_endpoint_ok
    (lib : Library) (created : datetime) (data : FarmData) (w w' : World)
    (resp : response) :
  generate_report_endpoint lib created data w = Ok (resp, w') ->
  exists els pdf new_id,
    report_elements lib data = Ok els
    /\ build lib (report_path lib data) els = Returned pdf
    /\ Store.insert (reports w) (farmer_name data) (crop_name data)
         (report_filename (now lib) data) (json_dumps lib data)
         (strftime_minute created) = Ok (new_id, reports w')
    /\ resp = JSONBody 200 [("status", "success");
                            ("filename", report_filename (now lib) data)]
    /\ files w' = files (write_file w (report_path lib data) pdf).
Proof.
  unfold generate_report_endpoint, create_and_save_pdf.
  fold (report_path lib data).
  destruct (report_elements lib data) as [els | e]; [ | discriminate].
  cbv beta iota delta [bind].
  destruct (build lib (report_path lib data) els) as [pdf | what] eqn:Hpdf;
    [ | discriminate].
  cbv beta iota delta [call].
  change (reports (write_file w (report_path lib data) pdf))
    with (reports w).
  destruct (Store.insert _ _ _ _ _ _) as [[new_id db'] | e] eqn:Hins;
    [ | discriminate].
  intros H. injection H as <- <-.
  exists els, pdf, new_id.
  split; [reflexivity | split; [exact Hpdf | ]].
  split; [reflexivity | split; reflexivity].
Qed.





(** After a successful POST /api/generate the listing is the new row, with
    the names of the record, the file name of the report, the serialised
    record and the time to the minute, followed by the listing as it was;
    the new id is above every id listed before. *)
Theorem generated_report_listed_first
    (lib : Library) (created : datetime) (data : FarmData) (w w' : World)
    (resp : response) :
  generate_report_endpoint lib created data w = Ok (resp, w') ->
  exists new_id,
    get_reports w'
    = {| Store.id := new_id;
         Store.farmer_name := farmer_name data;
         Store.crop_name := crop_name data;
         Store.filename := report_filename (now lib) data;
         Store.json_data := json_dumps lib data;
         Store.created_at := strftime_minute created |} :: get_reports w
    /\ forall r, In r (get_reports w) -> Store.id r < new_id.
Proof.
  intros H.
  apply generate_report_endpoint_ok in H
    as [els [pdf [new_id [_ [_ [Hins _]]]]]].
  apply ListingFacts.insert_ok in Hins as [Hrows [Hfresh _]].
  exists new_id.
  unfold get_reports, Store.select_all_desc. rewrite Hrows. split.
  - apply StoreFacts.order_append_newest. exact Hfresh.
  - intros r Hr. apply Hfresh.
    apply (Permutation_in _ (Permutation_sym (ListingFacts.order_perm _))).
    exact Hr.
Qed.

Lemma generated_report_listed_first_witness :
  exists w' new_id,
    generate_report_endpoint Sample.library Sample.clock Sample.ravi
      Sample.world
    = Ok (JSONBody 200 [("status", "success");
                        ("filename", "Ravi_Kumar_Wheat_20240320_090507.pdf")],
          w')
    /\ get_reports w'
       = {| Store.id := new_id; Store.farmer_name := "Ravi Kumar";
            Store.crop_name := "Wheat";
            Store.filename := "Ravi_Kumar_Wheat_20240320_090507.pdf";
            Store.json_data := "{}";
            Store.created_at := "2024-03-20 09:05" |}
          :: get_reports Sample.world.
Proof.
  eexists.
  destruct (generated_report_listed_first Sample.library Sample.clock
              Sample.ravi Sample.world _ _ eq_refl) as [new_id [Hlist _]].
  exists new_id. split; [reflexivity | exact Hlist].
Defined.

(** Two reports under one file name.  Nothing checks a file name against
    the earlier ones: when a second request succeeds with the file name of
    a first, the file holds the document of the second, and the listing has
    both rows, the second on top, under the same file name. *)
Theorem same_filename_overwrites
    (lib1 lib2 : Library) (created1 created2 : datetime)
    (data1 data2 : FarmData) (w w1 w2 : World) (resp1 resp2 : response) :
  generate_report_endpoint lib1 created1 data1 w = Ok (resp1, w1) ->
  generate_report_endpoint lib2 created2 data2 w1 = Ok (resp2, w2) ->
  report_filename (now lib1) data1 = report_filename (now lib2) data2 ->
  (exists els2 pdf2,
     report_elements lib2 data2 = Ok els2
     /\ build lib2 (report_path lib2 data2) els2 = Returned pdf2
     /\ files w2 (report_path lib1 data1) = Some (File pdf2))
  /\ (exists row1 row2 : Store.row,
        get_reports w2 = row2 :: row1 :: get_reports w
        /\ Store.filename row1 = report_filename (now lib1) data1
        /\ Store.filename row2 = Store.filename row1
        /\ Store.id row1 < Store.id row2).
Proof.
  intros H1 H2 Hname.
  assert (Hpath : report_path lib1 data1 = report_path lib2 data2)
    by (unfold report_path; rewrite Hname; reflexivity).
  apply generate_report_endpoint_ok in H1
    as [els1 [pdf1 [id1 [_ [_ [Hins1 _]]]]]].
  apply generate_report_endpoint_ok in H2
    as [els2 [pdf2 [id2 [Hels [Hpdf [Hins2 [_ Hfiles]]]]]]].
  apply ListingFacts.insert_ok in Hins1 as [Hrows1 [Hfresh1 _]].
  apply ListingFacts.insert_ok in Hins2 as [Hrows2 [Hfresh2 _]].
  split.
  - exists els2, pdf2. repeat split; try assumption.
    rewrite Hfiles, Hpath. simpl. rewrite String.eqb_refl. reflexivity.
  - match type of Hrows1 with
    | _ = (_ ++ [?r])%list =>
        assert (Hlt : Store.id r < id2)
          by (apply Hfresh2; rewrite Hrows1; apply in_or_app;
              right; left; reflexivity)
    end.
    cbn [Store.id] in Hlt.
    eexists. eexists.
    unfold get_reports, Store.select_all_desc.
    rewrite Hrows2, Hrows1.
    rewrite StoreFacts.order_append_newest
      by (rewrite <- Hrows1; exact Hfresh2).
    rewrite StoreFacts.order_append_newest by exact Hfresh1.
    split; [reflexivity | ].
    cbn [Store.filename Store.id].
    split; [reflexivity | split; [symmetry; exact Hname | exact Hlt]].
Qed.

Lemma same_filename_overwrites_witness :
  exists w1 w2 resp1 resp2,
    generate_report_endpoint Sample.library Sample.clock Sample.ravi
      Sample.world = Ok (resp1, w1)
    /\ generate_report_endpoint Sample.library Sample.clock Sample.ravi
         w1 = Ok (resp2, w2)
    /\ exists row1 row2 : Store.row,
         get_reports w2 = row2 :: row1 :: get_reports Sample.world
         /\ Store.filename row1
            = report_filename (now Sample.library) Sample.ravi
         /\ Store.filename row2 = Store.filename row1
         /\ Store.id row1 < Store.id row2.
Proof.
  eexists. eexists. eexists. eexists.
  split; [reflexivity | split; [reflexivity | ]].
  apply (same_filename_overwrites Sample.library Sample.library
           Sample.clock Sample.clock Sample.ravi Sample.ravi
           Sample.world _ _ _ _ eq_refl eq_refl eq_refl).
Defined.

(** ** Requests *)

Module RequestFacts.

Import Validate.

Lemma invalid_item_fails {A : Type} (item : json -> option A)
    (l : list json) (j : json) :
  In j l -> item j = None -> all_valid item l = None.
Proof.
  induction l as [ | j' l IH]; simpl; [contradiction | ].
  intros [-> | Hin] Hj.
  - rewrite Hj. reflexivity.
  - rewrite (IH Hin Hj). destruct (item j'); reflexivity.
Qed.

Ltac by_cases :=
  repeat match goal with
    | |- context [match ?x with Some _ => _ | None => _ end] =>
        destruct x; try reflexivity
    end.

Lemma expense_item_missing_key (f : list (string * json)) (k : string) :
  In k item_keys -> get k f = None -> expense_item (JObj f) = None.
Proof.
  unfold item_keys, expense_item, str_field, float_field.
  intros [<- | [<- | [<- | []]]] Hk; rewrite Hk; try reflexivity; by_cases;
    repeat match goal with
      | |- context [match ?x with JNull => _ | _ => _ end] =>
          destruct x; try reflexivity
      end; by_cases.
Qed.

Lemma income_item_missing_key (f : list (string * json)) (k : string) :
  In k item_keys -> get k f = None -> income_item (JObj f) = None.
Proof.
  unfold item_keys, income_item, str_field, float_field.
  intros [<- | [<- | [<- | []]]] Hk; rewrite Hk; try reflexivity; by_cases;
    repeat match goal with
      | |- context [match ?x with JNull => _ | _ => _ end] =>
          destruct x; try reflexivity
      end; by_cases.
Qed.

Lemma farm_data_missing_key (fields : list (string * json)) (k : string) :
  In k required_keys -> get k fields = None -> farm_data (JObj fields) = None.
Proof.
  intros Hin Hk. unfold farm_data.
  assert (Hs : str_field k fields = None)
    by (unfold str_field; rewrite Hk; reflexivity).
  assert (Hf : float_field k fields = None)
    by (unfold float_field; rewrite Hk; reflexivity).
  assert (He : list_field expense_item k fields = None)
    by (unfold list_field; rewrite Hk; reflexivity).
  assert (Hi : list_field income_item k fields = None)
    by (unfold list_field; rewrite Hk; reflexivity).
  unfold required_keys in Hin. cbn [In] in Hin.
  repeat (destruct Hin as [<- | Hin];
          [ try rewrite Hs; try rewrite Hf; try rewrite He; try rewrite Hi;
            by_cases; reflexivity | ]).
  contradiction.
Qed.

Lemma farm_data_invalid_expense (fields : list (string * json))
    (items : list json) (j : json) :
  get "expenses" fields = Some (JArr items) ->
  In j items -> expense_item j = None ->
  farm_data (JObj fields) = None.
Proof.
  intros Hget Hin Hj. unfold farm_data.
  assert (He : list_field expense_item "expenses" fields = None)
    by (unfold list_field; rewrite Hget;
        apply (invalid_item_fails _ _ _ Hin Hj)).
  rewrite He. by_cases; reflexivity.
Qed.

Lemma farm_data_invalid_income (fields : list (string * json))
    (items : list json) (j : json) :
  get "incomes" fields = Some (JArr items) ->
  In j items -> income_item j = None ->
  farm_data (JObj fields) = None.
Proof.
  intros Hget Hin Hj. unfold farm_data.
  assert (Hi : list_field income_item "incomes" fields = None)
    by (unfold list_field; rewrite Hget;
        apply (invalid_item_fails _ _ _ Hin Hj)).
  rewrite Hi. by_cases; reflexivity.
Qed.

End RequestFacts.

(** A body that lacks one of the ten keys of a farm record, or that has an
    expense or an income without a category, an amount or a date, does not
    validate: POST /api/generate answers with status 422, and nothing is
    written or inserted. *)
Theorem incomplete_request_rejected
    (lib : Library) (created : datetime) (fields : list (string * json))
    (w : World) :
  (exists k, In k required_keys /\ Validate.get k fields = None)
  \/ (exists items f k,
        Validate.get "expenses" fields = Some (JArr items)
        /\ In (JObj f) items /\ In k item_keys /\ Validate.get k f = None)
  \/ (exists items f k,
        Validate.get "incomes" fields = Some (JArr items)
        /\ In (JObj f) items /\ In k item_keys /\ Validate.get k f = None) ->
  Validate.farm_data (JObj fields) = None
  /\ exists detail,
       post_generate lib created (JObj fields) w = Ok (JSONBody 422 detail, w).
Proof.
  intros H.
  assert (Hnone : Validate.farm_data (JObj fields) = None).
  { destruct H as [[k [Hin Hk]]
                  | [[items [f [k [Hget [Hin [Hk Hmiss]]]]]]
                    | [items [f [k [Hget [Hin [Hk Hmiss]]]]]]]].
    - apply (RequestFacts.farm_data_missing_key _ _ Hin Hk).
    - apply (RequestFacts.farm_data_invalid_expense _ _ _ Hget Hin).
      apply (RequestFacts.expense_item_missing_key _ _ Hk Hmiss).
    - apply (RequestFacts.farm_data_invalid_income _ _ _ Hget Hin).
      apply (RequestFacts.income_item_missing_key _ _ Hk Hmiss). }
  split; [exact Hnone | ].
  unfold post_generate. rewrite Hnone. eexists. reflexivity.
Qed.

Lemma incomplete_request_rejected_witness :
  let fields :=
    [ ("farmer_name", JStr "Ravi Kumar"); ("crop_name", JStr "Wheat");
      ("season", JStr "Rabi"); ("total_acres", JNum (PyInt 2));
      ("sowing_date", JStr "2023-11-01");
      ("harvest_date", JStr "2024-03-15"); ("location", JStr "Nashik");
      ("total_production", JNum (PyInt 40));
      ("expenses",
       JArr [JObj [("category", JStr "Seeds"); ("date", JStr "2023-11-02")]]);
      ("incomes", JArr []) ] in
  Validate.farm_data (JObj fields) = None
  /\ exists detail,
       post_generate Sample.library Sample.clock (JObj fields) Sample.world
       = Ok (JSONBody 422 detail, Sample.world).
Proof.
  intros fields.
  apply (incomplete_request_rejected Sample.library Sample.clock fields
           Sample.world).
  right. left.
  exists [JObj [("category", JStr "Seeds"); ("date", JStr "2023-11-02")]],
    [("category", JStr "Seeds"); ("date", JStr "2023-11-02")], "amount".
  split; [reflexivity | ].
  split; [left; reflexivity | ].
  split; [right; left; reflexivity | reflexivity].
Defined.

Module DictFacts.

Import Validate.

Lemma expense_item_dict (e : ExpenseItem.t) :
  expense_item (ExpenseItem_dict e) = Some e.
Proof. destruct e as [c a d [s | ]]; reflexivity. Qed.

Lemma income_item_dict (i : IncomeItem.t) :
  income_item (IncomeItem_dict i) = Some i.
Proof. destruct i as [c a d [s | ]]; reflexivity. Qed.

Lemma all_valid_map {A : Type} (item : json -> option A) (encode : A -> json)
    (l : list A) :
  (forall a, item (encode a) = Some a) ->
  all_valid item (map encode l) = Some l.
Proof.
  intros Hround. induction l as [ | a l IH]; simpl; [reflexivity | ].
  rewrite Hround, IH. reflexivity.
Qed.

(** What validates comes out item by item, in the order given. *)
Lemma all_valid_items {A : Type} (item : json -> option A) (l : list json) :
  forall l', all_valid item l = Some l' ->
    Forall2 (fun j a => item j = Some a) l l'.
Proof.
  induction l as [ | j l IH]; simpl; intros l' H.
  - injection H as <-. constructor.
  - destruct (item j) as [a | ] eqn:Hj; [ | discriminate].
    destruct (all_valid item l) as [l0 | ]; [ | discriminate].
    injection H as <-. constructor; [exact Hj | apply IH; reflexivity].
Qed.

End DictFacts.

(** The record read back from its own dictionary: [data.dict()], taken as
    a request body, validates, and gives the record it came from, every
    expense and income in its place. *)
Theorem dict_validates_back (data : FarmData) :
  Validate.farm_data (FarmData_dict data) = Some data.
Proof.
  destruct data as [fn cn se ta sd hd lo tp ex inc].
  unfold FarmData_dict, Validate.farm_data.
  cbn [farmer_name crop_name season total_acres sowing_date harvest_date
       location total_production expenses incomes].
  assert (He : Validate.list_field Validate.expense_item "expenses"
                 [("farmer_name", JStr fn); ("crop_name", JStr cn);
                  ("season", JStr se); ("total_acres", JNum (PyFloat ta));
                  ("sowing_date", JStr sd); ("harvest_date", JStr hd);
                  ("location", JStr lo);
                  ("total_production", JNum (PyFloat tp));
                  ("expenses", JArr (map ExpenseItem_dict ex));
                  ("incomes", JArr (map IncomeItem_dict inc))] = Some ex)
    by apply (DictFacts.all_valid_map _ _ ex DictFacts.expense_item_dict).
  assert (Hi : Validate.list_field Validate.income_item "incomes"
                 [("farmer_name", JStr fn); ("crop_name", JStr cn);
                  ("season", JStr se); ("total_acres", JNum (PyFloat ta));
                  ("sowing_date", JStr sd); ("harvest_date", JStr hd);
                  ("location", JStr lo);
                  ("total_production", JNum (PyFloat tp));
                  ("expenses", JArr (map ExpenseItem_dict ex));
                  ("incomes", JArr (map IncomeItem_dict inc))] = Some inc)
    by apply (DictFacts.all_valid_map _ _ inc DictFacts.income_item_dict).
  rewrite He, Hi. reflexivity.
Qed.

(** Validation keeps the items: a body that validates gives as many
    expenses and incomes as it lists, each the validated form of the item at
    its place. *)
Theorem validated_items_in_order
    (fields : list (string * json)) (data : FarmData) :
  Validate.farm_data (JObj fields) = Some data ->
  (exists items,
     Validate.get "expenses" fields = Some (JArr items)
     /\ Forall2 (fun j e => Validate.expense_item j = Some e)
          items (expenses data))
  /\ (exists items,
        Validate.get "incomes" fields = Some (JArr items)
        /\ Forall2 (fun j i => Validate.income_item j = Some i)
             items (incomes data)).
Proof.
  unfold Validate.farm_data.
  destruct (Validate.str_field "farmer_name" fields); [ | discriminate].
  destruct (Validate.str_field "crop_name" fields); [ | discriminate].
  destruct (Validate.str_field "season" fields); [ | discriminate].
  destruct (Validate.float_field "total_acres" fields); [ | discriminate].
  destruct (Validate.str_field "sowing_date" fields); [ | discriminate].
  destruct (Validate.str_field "harvest_date" fields); [ | discriminate].
  destruct (Validate.str_field "location" fields); [ | discriminate].
  destruct (Validate.float_field "total_production" fields);
    [ | discriminate].
  destruct (Validate.list_field Validate.expense_item "expenses" fields)
    as [ex | ] eqn:He; [ | discriminate].
  destruct (Validate.list_field Validate.income_item "incomes" fields)
    as [inc | ] eqn:Hi; [ | discriminate].
  intros H. injection H as <-. cbn [expenses incomes].
  unfold Validate.list_field in He, Hi.
  destruct (Validate.get "expenses" fields) as [[ | | | | ex_items | ] | ];
    try discriminate.
  destruct (Validate.get "incomes" fields) as [[ | | | | inc_items | ] | ];
    try discriminate.
  split.
  - exists ex_items. split; [reflexivity | ].
    apply DictFacts.all_valid_items, He.
  - exists inc_items. split; [reflexivity | ].
    apply DictFacts.all_valid_items, Hi.
Qed.

Lemma validated_items_in_order_witness :
  let fields :=
    [ ("farmer_name", JStr "Ravi Kumar"); ("crop_name", JStr "Wheat");
      ("season", JStr "Rabi"); ("total_acres", JNum (PyInt 2));
      ("sowing_date", JStr "2023-11-01");
      ("harvest_date", JStr "2024-03-15"); ("location", JStr "Nashik");
      ("total_production", JNum (PyInt 40));
      ("expenses",
       JArr [JObj [("category", JStr "Seeds"); ("amount", JNum (PyInt 2000));
                   ("date", JStr "2023-11-02")]]);
      ("incomes",
       JArr [JObj [("category", JStr "Sale"); ("amount", JNum (PyInt 50000));
                   ("date", JStr "2024-03-20")]]) ] in
  exists items,
    Validate.get "expenses" fields = Some (JArr items)
    /\ Forall2 (fun j e => Validate.expense_item j = Some e)
         items (expenses Sample.ravi).
Proof.
  intros fields.
  apply (proj1 (validated_items_in_order fields Sample.ravi eq_refl)).
Defined.

(** No request ends in a division by zero, whatever its body and whatever
    the libraries answer. *)
Theorem request_never_divides_by_zero
    (lib : Library) (created : datetime) (body : json) (w : World) :
  post_generate lib created body w <> Raise ZeroDivisionError.
Proof.
  unfold post_generate.
  destruct (Validate.farm_data body) as [data | ]; [ | discriminate].
  unfold generate_report_endpoint.
  destruct (create_and_save_pdf_value lib data w) as [m [_ ->]].
  destruct (render_pie lib _); [ | discriminate].
  destruct (build lib _ _); [ | discriminate].
  cbv beta iota delta [bind].
  unfold Store.insert.
  destruct (Store.max_rowid <=? _); discriminate.
Qed.

(** ** File names and the clock *)

Module StampFacts.












End StampFacts.



(** ** Where the composer writes *)





(** ** A record without expenses *)





